(** * ActSNClass: light-curve feature extraction and query strategies

    A shallow embedding of [actsnclass/fit_lightcurves.py] and
    [actsnclass/query_strategies.py], with the properties their
    specification states about them.

    Conventions of the embedding.
    - A Python float is a [pyfloat]: an exact rational or one of the three
      IEEE special values, which the code tests for
      ([str(item) == 'nan']).  Every 64-bit float is such a value.  The
      subtraction [fsub] is exact; where the order of computed distances
      matters, the subtraction is a parameter ([float_sub]) and the
      statements hold however it rounds.
    - Code that can raise returns a [result]; the exception is a value.
    - numpy and pandas operations are written out as list functions, with
      what they do out of range.  [ndarray.argsort], [numpy.random.randint],
      the template fitter [bazin.fit_scipy] and the builtins [int] and
      [float] are parameters of the sections that use them.
    - [print] calls produce no value and are left out; the expressions they
      evaluate are kept, since evaluating them can raise. *)

From Stdlib Require Import Ascii String.
From Stdlib Require Import List ZArith QArith Qabs Bool Lia Arith.
From Stdlib Require Import Permutation Sorted.
Import ListNotations.

Local Open Scope string_scope.
Local Open Scope list_scope.
Local Open Scope nat_scope.

(** ** Python values *)

Inductive pyfloat : Type :=
| Finite (q : Q)
| PosInf
| NegInf
| NaN.

(** Subtraction of floats, IEEE special cases written out. *)
Definition fsub (x y : pyfloat) : pyfloat :=
  match x, y with
  | NaN, _ | _, NaN => NaN
  | Finite a, Finite b => Finite (Qred (a - b))
  | PosInf, PosInf | NegInf, NegInf => NaN
  | PosInf, _ => PosInf
  | NegInf, _ => NegInf
  | Finite _, PosInf => NegInf
  | Finite _, NegInf => PosInf
  end.

(** [abs(x)] *)
Definition fabs (x : pyfloat) : pyfloat :=
  match x with
  | Finite a => Finite (Qabs a)
  | PosInf | NegInf => PosInf
  | NaN => NaN
  end.

(** [x < y]; false as soon as one side is NaN. *)
Definition fltb (x y : pyfloat) : bool :=
  match x, y with
  | NaN, _ | _, NaN => false
  | Finite a, Finite b => negb (Qle_bool b a)
  | NegInf, NegInf | PosInf, _ => false
  | NegInf, _ => true
  | Finite _, PosInf => true
  | Finite _, NegInf => false
  end.

Definition is_nan (x : pyfloat) : bool :=
  match x with NaN => true | _ => false end.

(** [str(item) == 'nan']: the text of a float is ['nan'] for NaN only
    (['inf'] and ['-inf'] for the infinities, digits otherwise). *)
Definition str_is_nan (item : pyfloat) : bool := is_nan item.

Definition is_finite (x : pyfloat) : bool :=
  match x with Finite _ => true | _ => false end.

(** The order numpy sorts floats by: [<], with NaN after everything else. *)
Definition sort_ltb (x y : pyfloat) : bool :=
  fltb x y || (is_nan y && negb (is_nan x)).

Definition sort_leb (x y : pyfloat) : bool := negb (sort_ltb y x).

(** ** Exceptions *)

Inductive exn : Type :=
| IndexError
| NameError (name : string)
| ValueError (msg : string)
| AttributeError (name : string).

Inductive result (A : Type) : Type :=
| Ok (a : A)
| Raise (e : exn).

Arguments Ok {A} a.
Arguments Raise {A} e.

Definition bind {A B : Type} (c : result A) (k : A -> result B) : result B :=
  match c with
  | Ok a => k a
  | Raise e => Raise e
  end.

Notation "x <- c ;; k" := (bind c (fun x => k))
  (at level 61, c at next level, right associativity).

Fixpoint mapM {A B : Type} (f : A -> result B) (l : list A) : result (list B) :=
  match l with
  | [] => Ok []
  | a :: l' => b <- f a ;; bs <- mapM f l' ;; Ok (b :: bs)
  end.

(** ** List and array primitives *)

(** [l[i]] for a non-negative [i]. *)
Definition getitem {A : Type} (l : list A) (i : nat) : result A :=
  match nth_error l i with
  | Some a => Ok a
  | None => Raise IndexError
  end.

(** [a[idx]] for an integer index array [idx]. *)
Definition take {A : Type} (a : list A) (idx : list nat) : result (list A) :=
  mapM (getitem a) idx.

Fixpoint compress {A : Type} (a : list A) (flag : list bool) : list A :=
  match a, flag with
  | x :: a', b :: flag' => if b then x :: compress a' flag' else compress a' flag'
  | _, _ => []
  end.

(** [a[flag]] after [flag = np.array(flag)].  A list of booleans makes a
    boolean array, whose length must be that of [a]; the empty list makes
    an array of floats, which is not an index. *)
Definition mask {A : Type} (a : list A) (flag : list bool) : result (list A) :=
  match flag with
  | [] => Raise IndexError
  | _ :: _ =>
      if length a =? length flag then Ok (compress a flag)
      else Raise IndexError
  end.

(** [m[:, j]] on a two-dimensional array given by its rows. *)
Definition column {A : Type} (m : list (list A)) (j : nat) : result (list A) :=
  mapM (fun row => getitem row j) m.

(** [l[:stop]]; a negative [stop] counts from the end. *)
Definition slice_to {A : Type} (l : list A) (stop : Z) : list A :=
  if (0 <=? stop)%Z then firstn (Z.to_nat stop) l
  else firstn (length l - Z.to_nat (- stop)) l.

(** [pd.Series(data).isin(values)], one entry. *)
Definition isin (x : Z) (values : list Z) : bool :=
  existsb (Z.eqb x) values.

(** [list(l).index(x)] *)
Fixpoint list_index (l : list nat) (x : nat) : result nat :=
  match l with
  | [] => Raise (ValueError "is not in list")
  | y :: l' => if y =? x then Ok 0 else i <- list_index l' x ;; Ok (S i)
  end.

(** ** query_strategies.py *)

Definition half : pyfloat := Finite (1 # 2).

Section UncertaintySampling.

(** The subtraction of two floats as the machine does it, with the
    rounding of its result. *)
Variable float_sub : pyfloat -> pyfloat -> pyfloat.

(** [ndarray.argsort()] with numpy's default [kind]. *)
Variable argsort : list pyfloat -> list nat.

Definition uncertainty_sampling_with (class_prob : list (list pyfloat))
    (test_ids queryable_ids : list Z) (batch : Z) (screen : bool)
    : result (list nat) :=
  col <- column class_prob 1 ;;
  let dist := map (fun p => fabs (float_sub p half)) col in
  let order := argsort dist in
  ids <- take test_ids order ;;
  let flag := map (fun i => isin i queryable_ids) ids in
  final_order <- mask order flag ;;
  _ <- (if screen then
          _ <- take test_ids final_order ;;
          first <- getitem final_order 0 ;;
          _ <- list_index order first ;;
          top <- getitem order 0 ;;
          _ <- getitem class_prob top ;;
          _ <- getitem class_prob first ;;
          Ok tt
        else Ok tt) ;;
  Ok (slice_to final_order batch).

End UncertaintySampling.

(** [uncertainty_sampling] on probabilities whose distance from 0.5 is
    computed without rounding. *)
Definition uncertainty_sampling (argsort : list pyfloat -> list nat)
    : list (list pyfloat) -> list Z -> list Z -> Z -> bool
      -> result (list nat) :=
  uncertainty_sampling_with fsub argsort.

(** *** What [argsort] promises

    numpy documents [argsort] as returning the indices that sort the array;
    the default [kind] is ['quicksort'], which numpy documents as not
    stable.  The contract below is that documentation: a permutation of the
    row indices along which the keys never decrease.  Nothing is promised
    about rows with equal keys. *)

Definition key (keys : list pyfloat) (i : nat) : pyfloat := nth i keys NaN.

Definition ascending (keys : list pyfloat) (order : list nat) : Prop :=
  StronglySorted (fun i j => sort_leb (key keys i) (key keys j) = true) order.

Definition is_argsort (keys : list pyfloat) (order : list nat) : Prop :=
  Permutation (seq 0 (length keys)) order /\ ascending keys order.

Definition argsort_spec (argsort : list pyfloat -> list nat) : Prop :=
  forall keys, is_argsort keys (argsort keys).

(** A sorting procedure that meets the contract: insertion of each row
    before the first row whose key is not smaller.  It keeps equal keys in
    row order. *)

Fixpoint insert_by (before : nat -> nat -> bool) (i : nat) (l : list nat)
    : list nat :=
  match l with
  | [] => [i]
  | j :: l' => if before i j then i :: l else j :: insert_by before i l'
  end.

Definition argsort_by (before : list pyfloat -> nat -> nat -> bool)
    (keys : list pyfloat) : list nat :=
  fold_right (insert_by (before keys)) [] (seq 0 (length keys)).

Definition argsort_stable : list pyfloat -> list nat :=
  argsort_by (fun keys i j => sort_leb (key keys i) (key keys j)).

(** *** random_sampling *)

(** Objects a module-level name can be bound to. *)
Inductive pyobj : Type :=
| ObjModule (name : string)
| ObjFunction (name : string)
| ObjStrList (l : list string)
| ObjIndexArray (a : list nat).

Definition namespace : Type := list (string * pyobj).

Fixpoint lookup (name : string) (ns : namespace) : option pyobj :=
  match ns with
  | [] => None
  | (n, v) :: ns' => if String.eqb n name then Some v else lookup name ns'
  end.

(** The names [query_strategies.py] binds at module level: its imports, its
    [__all__] and its three functions. *)
Definition module_globals : namespace :=
  [ ("__all__", ObjStrList ["uncertainty_sampling"; "random_sampling"]);
    ("np", ObjModule "numpy");
    ("pd", ObjModule "pandas");
    ("uncertainty_sampling", ObjFunction "uncertainty_sampling");
    ("random_sampling", ObjFunction "random_sampling");
    ("main", ObjFunction "main") ].

(** A name a function reads and never assigns is looked up in the module's
    globals when the line runs; an unbound name raises [NameError]. *)
Definition load_global (globals : namespace) (name : string) : result pyobj :=
  match lookup name globals with
  | Some v => Ok v
  | None => Raise (NameError name)
  end.

(** An object used as an index array. *)
Definition as_index_array (v : pyobj) : result (list nat) :=
  match v with
  | ObjIndexArray a => Ok a
  | _ => Raise IndexError
  end.

Section RandomSampling.

(** [np.random.seed(seed)] followed by
    [np.random.randint(low=0, high=high, size=size)]. *)
Variable randint : Z -> nat -> nat -> result (list nat).

(** The module's globals at the time of the call. *)
Variable globals : namespace.

Definition random_sampling (test_ids queryable_ids : list Z)
    (batch seed : Z) (screen : bool) : result (list nat) :=
  indx <- randint seed (length test_ids) (length test_ids) ;;
  order_obj <- load_global globals "order" ;;
  order <- as_index_array order_obj ;;
  ids <- take test_ids order ;;
  let flag := map (fun i => isin i queryable_ids) ids in
  _ <- (if screen then
          chosen <- mask indx flag ;;
          _ <- take test_ids chosen ;;
          Ok tt
        else Ok tt) ;;
  chosen <- mask indx flag ;;
  Ok (slice_to chosen batch).

End RandomSampling.

(** ** fit_lightcurves.py *)

(** One row of the photometry table; its columns are
    [mjd, band, flux, fluxerr, SNR]. *)
Record observation : Type := {
  mjd : pyfloat;
  band : string;
  flux : pyfloat;
  fluxerr : pyfloat;
  SNR : pyfloat }.

(** An entry of [bazin_features]: a fitted parameter or the string
    ['None']. *)
Inductive feature : Type :=
| Fit (x : pyfloat)
| NoneStr.

(** [sum(flags)] for a list of booleans. *)
Definition count_true (flags : list bool) : nat :=
  length (filter (fun b => b) flags).

(** [l.index(x)] on a list of strings. *)
Fixpoint str_index (l : list string) (x : string) : result nat :=
  match l with
  | [] => Raise (ValueError "is not in list")
  | y :: l' => if String.eqb y x then Ok 0 else i <- str_index l' x ;; Ok (S i)
  end.

(** [line[0] == tag] on a line that has a word. *)
Definition first_word (tag : string) (line : list string) : bool :=
  match line with
  | w :: _ => String.eqb w tag
  | [] => false
  end.

(** [x in l] on a list of strings. *)
Definition str_in (x : string) (l : list string) : bool :=
  existsb (String.eqb x) l.

Module LightCurve.

(** The attributes of a [LightCurve] object.  [sncode] starts as the
    integer 0 and is only ever assigned the text read from the file; it
    is kept as text.  [photometry] is the table by rows, with the five
    columns the loader gives it. *)
Record t : Type := {
  bazin_features : list feature;
  dataset_name : string;
  filters : list string;
  id : Z;
  photometry : list observation;
  redshift : pyfloat;
  sample : string;
  sim_peakmag : list pyfloat;
  sncode : string;
  sntype : string }.

(** [__init__] *)
Definition init : t := {|
  bazin_features := [];
  dataset_name := " ";
  filters := [];
  id := 0%Z;
  photometry := [];
  redshift := Finite 0;
  sample := " ";
  sim_peakmag := [];
  sncode := "0";
  sntype := " " |}.

Definition set_bazin_features (self : t) (v : list feature) : t :=
  {| bazin_features := v; dataset_name := dataset_name self;
     filters := filters self; id := id self;
     photometry := photometry self; redshift := redshift self;
     sample := sample self; sim_peakmag := sim_peakmag self;
     sncode := sncode self; sntype := sntype self |}.

Definition set_dataset_name (self : t) (v : string) : t :=
  {| bazin_features := bazin_features self; dataset_name := v;
     filters := filters self; id := id self;
     photometry := photometry self; redshift := redshift self;
     sample := sample self; sim_peakmag := sim_peakmag self;
     sncode := sncode self; sntype := sntype self |}.

Definition set_filters (self : t) (v : list string) : t :=
  {| bazin_features := bazin_features self;
     dataset_name := dataset_name self; filters := v; id := id self;
     photometry := photometry self; redshift := redshift self;
     sample := sample self; sim_peakmag := sim_peakmag self;
     sncode := sncode self; sntype := sntype self |}.

Definition set_id (self : t) (v : Z) : t :=
  {| bazin_features := bazin_features self;
     dataset_name := dataset_name self; filters := filters self; id := v;
     photometry := photometry self; redshift := redshift self;
     sample := sample self; sim_peakmag := sim_peakmag self;
     sncode := sncode self; sntype := sntype self |}.

Definition set_photometry (self : t) (v : list observation) : t :=
  {| bazin_features := bazin_features self;
     dataset_name := dataset_name self; filters := filters self;
     id := id self; photometry := v; redshift := redshift self;
     sample := sample self; sim_peakmag := sim_peakmag self;
     sncode := sncode self; sntype := sntype self |}.

Definition set_redshift (self : t) (v : pyfloat) : t :=
  {| bazin_features := bazin_features self;
     dataset_name := dataset_name self; filters := filters self;
     id := id self; photometry := photometry self; redshift := v;
     sample := sample self; sim_peakmag := sim_peakmag self;
     sncode := sncode self; sntype := sntype self |}.

Definition set_sample (self : t) (v : string) : t :=
  {| bazin_features := bazin_features self;
     dataset_name := dataset_name self; filters := filters self;
     id := id self; photometry := photometry self;
     redshift := redshift self; sample := v;
     sim_peakmag := sim_peakmag self; sncode := sncode self;
     sntype := sntype self |}.

Definition set_sim_peakmag (self : t) (v : list pyfloat) : t :=
  {| bazin_features := bazin_features self;
     dataset_name := dataset_name self; filters := filters self;
     id := id self; photometry := photometry self;
     redshift := redshift self; sample := sample self; sim_peakmag := v;
     sncode := sncode self; sntype := sntype self |}.

Definition set_sncode (self : t) (v : string) : t :=
  {| bazin_features := bazin_features self;
     dataset_name := dataset_name self; filters := filters self;
     id := id self; photometry := photometry self;
     redshift := redshift self; sample := sample self;
     sim_peakmag := sim_peakmag self; sncode := v;
     sntype := sntype self |}.

Definition set_sntype (self : t) (v : string) : t :=
  {| bazin_features := bazin_features self;
     dataset_name := dataset_name self; filters := filters self;
     id := id self; photometry := photometry self;
     redshift := redshift self; sample := sample self;
     sim_peakmag := sim_peakmag self; sncode := sncode self;
     sntype := v |}.

(** *** load_snpcc_lc *)

Definition snii : list string :=
  ["2"; "3"; "4"; "12"; "15"; "17"; "19"; "20"; "21"; "24"; "25"; "26";
   "27"; "30"; "31"; "32"; "33"; "34"; "35"; "36"; "37"; "38"; "39"; "40";
   "41"; "42"; "43"; "44"].

Definition snibc : list string :=
  ["1"; "5"; "6"; "7"; "8"; "9"; "10"; "11"; "13"; "14"; "16"; "18";
   "22"; "23"; "29"; "45"; "28"].

(** What the header loop carries from one line to the next: the object
    and the two local lists. *)
Record loader : Type := {
  self : t;
  photometry_raw : list (list string);
  header : list string }.

Section Load.

(** The builtins [int(s)] and [float(s)]; they raise [ValueError] on
    text that is not a number. *)
Variable py_int : string -> result Z.
Variable py_float : string -> result pyfloat.

(** The body of [for line in data]. *)
Definition read_line (st : loader) (line : list string) : result loader :=
  tag <- getitem line 0 ;;
  if String.eqb tag "SNID:" then
    v <- getitem line 1 ;;
    n <- py_int v ;;
    Ok {| self := set_id (self st) n;
          photometry_raw := photometry_raw st; header := header st |}
  else if String.eqb tag "SNTYPE:" then
    v <- getitem line 1 ;;
    Ok {| self := set_sample (self st)
                    (if String.eqb v "-9" then "test" else "train");
          photometry_raw := photometry_raw st; header := header st |}
  else if String.eqb tag "SIM_REDSHIFT:" then
    v <- getitem line 1 ;;
    z <- py_float v ;;
    Ok {| self := set_redshift (self st) z;
          photometry_raw := photometry_raw st; header := header st |}
  else if String.eqb tag "SIM_NON1a:" then
    v <- getitem line 1 ;;
    let lc := set_sncode (self st) v in
    if str_in v snibc then
      Ok {| self := set_sntype lc "Ibc";
            photometry_raw := photometry_raw st; header := header st |}
    else if str_in v snii then
      Ok {| self := set_sntype lc "II";
            photometry_raw := photometry_raw st; header := header st |}
    else if String.eqb v "0" then
      Ok {| self := set_sntype lc "Ia";
            photometry_raw := photometry_raw st; header := header st |}
    else Raise (ValueError "Unknown supernova type!")
  else if String.eqb tag "VARLIST:" then
    Ok {| self := self st; photometry_raw := photometry_raw st;
          header := tl line |}
  else if String.eqb tag "OBS:" then
    Ok {| self := self st;
          photometry_raw := photometry_raw st ++ [tl line];
          header := header st |}
  else if String.eqb tag "SIM_PEAKMAG:" then
    mags <- mapM py_float (firstn 4 (tl line)) ;;
    Ok {| self := set_sim_peakmag (self st) mags;
          photometry_raw := photometry_raw st; header := header st |}
  else Ok st.

Fixpoint read_lines (st : loader) (data : list (list string))
    : result loader :=
  match data with
  | [] => Ok st
  | line :: data' => st' <- read_line st line ;; read_lines st' data'
  end.

(** [np.array(rows)[:, j]]: the rows form a two-dimensional array only
    when there is at least one and all have one length. *)
Definition raw_column (rows : list (list string)) (j : nat)
    : result (list string) :=
  match rows with
  | [] => Raise IndexError
  | r :: _ =>
      if forallb (fun r' => length r' =? length r) rows
      then column rows j
      else Raise IndexError
  end.

Definition float_column (rows : list (list string)) (hd : list string)
    (name : string) : result (list pyfloat) :=
  j <- str_index hd name ;;
  c <- raw_column rows j ;;
  mapM py_float c.

Fixpoint zip5 (a : list pyfloat) (b : list string) (c d e : list pyfloat)
    : list observation :=
  match a, b, c, d, e with
  | x :: a', y :: b', z :: c', u :: d', v :: e' =>
      {| mjd := x; band := y; flux := z; fluxerr := u; SNR := v |}
        :: zip5 a' b' c' d' e'
  | _, _, _, _, _ => []
  end.

(** [np.array(rows)] is a two-dimensional array of words when all the
    rows have one length. *)
Definition two_dimensional (rows : list (list string)) : bool :=
  match rows with
  | [] => false
  | r :: rows' => forallb (fun r' => length r' =? length r) rows'
  end.

(** [load_snpcc_lc], from the lines of the file already split into
    words ([data_all]); opening and reading the file is not modelled.
    Three cases of numpy and pandas are written out.  With no line at
    all, [flag_lines] is an empty array of floats and
    [data_all[flag_lines]] raises.  With lines all of one length,
    [data_all] is a two-dimensional array and the [header] taken from a
    [VARLIST:] line is an array, which has no [index].  A column that is
    assigned to a table that already has rows must have as many. *)
Definition load_snpcc_lc (lc : t) (data_all : list (list string))
    : result t :=
  let lc := set_dataset_name lc "SNPCC" in
  let lc := set_filters lc ["g"; "r"; "i"; "z"] in
  match data_all with
  | [] => Raise IndexError
  | _ :: _ =>
  let data := filter (fun line => 1 <? length line) data_all in
  st <- read_lines {| self := lc; photometry_raw := []; header := [] |}
                   data ;;
  let raw := photometry_raw st in
  let hd := header st in
  if two_dimensional data_all && existsb (first_word "VARLIST:") data
  then Raise (AttributeError "index") else
  c_mjd <- float_column raw hd "MJD" ;;
  if negb (length (photometry lc) =? 0)
     && negb (length c_mjd =? length (photometry lc))
  then Raise (ValueError "Length of values does not match length of index")
  else
  j <- str_index hd "FLT" ;;
  c_band <- raw_column raw j ;;
  c_flux <- float_column raw hd "FLUXCAL" ;;
  c_err <- float_column raw hd "FLUXCALERR" ;;
  c_snr <- float_column raw hd "SNR" ;;
  Ok (set_photometry (self st) (zip5 c_mjd c_band c_flux c_err c_snr))
  end.

End Load.

(** *** fit_bazin and fit_bazin_all *)

Section Fit.

(** [bazin.fit_scipy(time, flux)], the template fitter. *)
Variable fit_scipy : list pyfloat -> list pyfloat -> result (list pyfloat).

(** [self.photometry['band'] == band] *)
Definition filter_flag (lc : t) (b : string) : list bool :=
  map (fun o => String.eqb (band o) b) (photometry lc).

Definition fit_bazin (lc : t) (b : string) : result (list pyfloat) :=
  let flag := filter_flag lc b in
  let time := compress (map mjd (photometry lc)) flag in
  let flx := compress (map flux (photometry lc)) flag in
  t0 <- getitem time 0 ;;
  fit_scipy (map (fun t => fsub t t0) time) flx.

(** The body of [for band in self.filters], on the list built so far. *)
Definition fit_band (lc : t) (features : list feature) (b : string)
    : result (list feature) :=
  let flag := filter_flag lc b in
  if 4 <? count_true flag then
    best_fit <- fit_bazin lc b ;;
    if count_true (map str_is_nan best_fit) =? 0
    then Ok (features ++ map Fit best_fit)
    else Ok (features ++ repeat NoneStr 5)
  else Ok (features ++ repeat NoneStr 5).

Fixpoint fit_bands (lc : t) (features : list feature)
    (bands : list string) : result (list feature) :=
  match bands with
  | [] => Ok features
  | b :: bands' =>
      features' <- fit_band lc features b ;;
      fit_bands lc features' bands'
  end.

Definition fit_bazin_all (lc : t) : result t :=
  features <- fit_bands lc [] (filters lc) ;;
  Ok (set_bazin_features lc features).

End Fit.

End LightCurve.

(** *** fit_bazin_samples *)

(** A value the driver writes to the features file, before [str] turns it
    into text. *)
Inductive cell : Type :=
| CellInt (n : Z)
| CellFloat (x : pyfloat)
| CellStr (s : string)
| CellFeature (f : feature).

(** A line of the features file: the header, or the values of one
    object, each written with a blank after it. *)
Inductive file_line : Type :=
| Header (text : string)
| Row (cells : list cell).

Definition header_text : string :=
  "id redshift type code sample gA gB gt0 gtfall gtrise rA rB rt0 rtfall rtrise iA iB it0 "
  ++ "itfall itrise zA zB zt0 ztfall ztrise".

(** [sub in s] on strings. *)
Fixpoint str_contains (sub s : string) : bool :=
  String.prefix sub s
  || match s with
     | EmptyString => false
     | String _ s' => str_contains sub s'
     end.

(** [item == 'None'] for an entry of [bazin_features]. *)
Definition is_none (item : feature) : bool :=
  match item with
  | NoneStr => true
  | Fit _ => false
  end.

(** The values written for one object. *)
Definition row_of (lc : LightCurve.t) : list cell :=
  [ CellInt (LightCurve.id lc); CellFloat (LightCurve.redshift lc);
    CellStr (LightCurve.sntype lc); CellStr (LightCurve.sncode lc);
    CellStr (LightCurve.sample lc) ]
  ++ map CellFeature (LightCurve.bazin_features lc).

Section Samples.

Variable py_int : string -> result Z.
Variable py_float : string -> result pyfloat.
Variable fit_scipy : list pyfloat -> list pyfloat -> result (list pyfloat).

(** The loop [for file in lc_list].  Each file is given by its name and
    its lines split into words.  The loop carries [count_surv] and the
    lines of the features file written so far; an exception leaves the
    file as it is at that point. *)
Fixpoint fit_files (lc_list : list (string * list (list string)))
    (count_surv : nat) (features_file : list file_line)
    : list file_line * result nat :=
  match lc_list with
  | [] => (features_file, Ok count_surv)
  | (_, data_all) :: lc_list' =>
      match
        lc <- LightCurve.load_snpcc_lc py_int py_float LightCurve.init
                                       data_all ;;
        LightCurve.fit_bazin_all fit_scipy lc
      with
      | Raise e => (features_file, Raise e)
      | Ok lc =>
          if negb (existsb is_none (LightCurve.bazin_features lc))
          then fit_files lc_list' (S count_surv)
                         (features_file ++ [Row (row_of lc)])
          else fit_files lc_list' count_surv features_file
      end
  end.

(** [fit_bazin_samples], from the listing of the data directory.  The
    result is the features file and the outcome of the call; the outcome
    of a call that ends holds the last value of [count_surv], which the
    function prints (it returns [None]). *)
Definition fit_bazin_samples
    (file_list_all : list (string * list (list string)))
    : list file_line * result nat :=
  let lc_list :=
    filter (fun file => str_contains "DES_SN" (fst file)) file_list_all in
  fit_files lc_list 0 [Header header_text].

End Samples.

(** ** Vocabulary of the statements *)

(** The second column of [class_prob], the distance of each row from the
    decision boundary, and the rows of an ordering whose id is queryable. *)
Definition prob_ia (class_prob : list (list pyfloat)) : list pyfloat :=
  map (fun row => nth 1 row NaN) class_prob.

Definition distances (float_sub : pyfloat -> pyfloat -> pyfloat)
    (class_prob : list (list pyfloat)) : list pyfloat :=
  map (fun p => fabs (float_sub p half)) (prob_ia class_prob).

Definition queryable_row (test_ids queryable_ids : list Z) (i : nat) : bool :=
  isin (nth i test_ids 0%Z) queryable_ids.

Definition ranking (float_sub : pyfloat -> pyfloat -> pyfloat)
    (argsort : list pyfloat -> list nat)
    (class_prob : list (list pyfloat)) (test_ids queryable_ids : list Z)
    : list nat :=
  filter (queryable_row test_ids queryable_ids)
         (argsort (distances float_sub class_prob)).

(** Inputs as the strategies expect them: one id per row of [class_prob],
    and at least two classes per row. *)
Definition aligned (class_prob : list (list pyfloat)) (test_ids : list Z)
    : Prop :=
  length test_ids = length class_prob /\
  Forall (fun row => 2 <= length row) class_prob.

(** No two rows of [keys] have keys that compare equal. *)
Definition no_ties (keys : list pyfloat) : Prop :=
  forall i j, i < length keys -> j < length keys ->
    sort_leb (key keys i) (key keys j) = true ->
    sort_leb (key keys j) (key keys i) = true -> i = j.

Definition no_tiesb (keys : list pyfloat) : bool :=
  forallb (fun i =>
    forallb (fun j =>
      (i =? j) || negb (sort_leb (key keys i) (key keys j)
                        && sort_leb (key keys j) (key keys i)))
      (seq 0 (length keys)))
    (seq 0 (length keys)).

(** ** Worked inputs *)

(** The probabilities [[.9,.1],[.5,.5],[.6,.4],[.95,.05]] with ids
    [10, 20, 30, 40], of which 10 and 30 can be queried. *)
Definition example_class_prob : list (list pyfloat) :=
  [ [Finite (9 # 10); Finite (1 # 10)];
    [Finite (5 # 10); Finite (5 # 10)];
    [Finite (6 # 10); Finite (4 # 10)];
    [Finite (95 # 100); Finite (5 # 100)] ].

Definition example_test_ids : list Z := [10; 20; 30; 40]%Z.

Definition example_queryable_ids : list Z := [10; 30]%Z.

(** Two probabilities so close to 0 that the machine computes the same
    distance 0.5 for both. *)
Definition close_class_prob : list (list pyfloat) :=
  [ [Finite (1 - (1 # 2 ^ 60)); Finite (1 # 2 ^ 60)];
    [Finite (1 - (1 # 2 ^ 59)); Finite (1 # 2 ^ 59)] ].

Definition close_test_ids : list Z := [10; 20]%Z.

(** A subtraction that rounds as the machine does on these inputs: a
    difference that lies at most [2^-55] above [-1/2] becomes [-1/2], as
    rounding to the nearest 64-bit float makes it.  Other differences are
    left exact. *)
Definition float_round_half (x y : pyfloat) : pyfloat :=
  match fsub x y with
  | Finite d =>
      if Qle_bool (- (1 # 2)) d && Qle_bool (d + (1 # 2)) (1 # 2 ^ 55)
      then Finite (- (1 # 2)) else Finite d
  | other => other
  end.

(** A generator that always draws index 0.  As [randint] does, it
    returns the empty array when no index is asked for and otherwise fails
    on an empty range ([low >= high]). *)
Definition randint_zeros (seed : Z) (high size : nat) : result (list nat) :=
  if size =? 0 then Ok []
  else if high =? 0 then Raise (ValueError "low >= high")
  else Ok (repeat 0 size).

(** What the extractor needs of the fitter: on more than four points it
    returns, and returns five parameters.  Nothing is asked of it on fewer
    points. *)
Definition fitter_contract
    (fit_scipy : list pyfloat -> list pyfloat -> result (list pyfloat))
    : Prop :=
  forall time flx,
    4 < length time -> length flx = length time ->
    exists p, fit_scipy time flx = Ok p /\ length p = 5.

(** The times and fluxes of the rows of one band, in table order. *)
Definition band_times (lc : LightCurve.t) (b : string) : list pyfloat :=
  compress (map mjd (LightCurve.photometry lc)) (LightCurve.filter_flag lc b).

Definition band_fluxes (lc : LightCurve.t) (b : string) : list pyfloat :=
  compress (map flux (LightCurve.photometry lc)) (LightCurve.filter_flag lc b).

(** The number of rows of one band. *)
Definition band_rows (lc : LightCurve.t) (b : string) : nat :=
  count_true (LightCurve.filter_flag lc b).


(** The loader state after a [SIM_NON1a:] line that carries a known
    code. *)
Definition labelled (st : LightCurve.loader) (code label : string)
    : LightCurve.loader :=
  {| LightCurve.self :=
       LightCurve.set_sntype (LightCurve.set_sncode (LightCurve.self st) code)
                             label;
     LightCurve.photometry_raw := LightCurve.photometry_raw st;
     LightCurve.header := LightCurve.header st |}.

Definition obs (t : Q) (b : string) (f : Q) : observation :=
  {| mjd := Finite t; band := b; flux := Finite f;
     fluxerr := Finite 1; SNR := Finite 1 |}.

(** A light curve with five [g] rows that are not in time order, two [r]
    rows and no [i] or [z] row. *)
Definition example_lc : LightCurve.t :=
  LightCurve.set_photometry
    (LightCurve.set_filters LightCurve.init ["g"; "r"; "i"; "z"])
    [ obs 5 "g" 10; obs 3 "g" 12; obs 4 "r" 7; obs 8 "g" 20;
      obs 9 "g" 15; obs 6 "r" 9; obs 10 "g" 11 ].

(** Three fitters: one that refuses fewer than five points and otherwise
    returns fixed finite parameters, one whose amplitude is infinite, and
    one that returns the times it was given. *)
Definition fit_fixed (time flx : list pyfloat) : result (list pyfloat) :=
  if 4 <? length time
  then Ok [Finite 1; Finite 2; Finite 3; Finite 4; Finite 5]
  else Raise (ValueError "too few points").

Definition fit_infinite (time flx : list pyfloat) : result (list pyfloat) :=
  Ok [PosInf; Finite 2; Finite 3; Finite 4; Finite 5].


Definition fit_nan (time flx : list pyfloat) : result (list pyfloat) :=
  Ok [Finite 1; Finite 2; NaN; Finite 4; Finite 5].

(** Builtin conversions that accept any text. *)
Definition int_any (s : string) : result Z := Ok 0%Z.
Definition float_any (s : string) : result pyfloat := Ok (Finite 0).

(** The rows of [class_prob] whose id can be queried, in row order. *)
Definition pool_rows (class_prob : list (list pyfloat))
    (test_ids queryable_ids : list Z) : list nat :=
  filter (queryable_row test_ids queryable_ids) (seq 0 (length class_prob)).

(** The distance of row [i] from the decision boundary, as computed. *)
Definition distance (float_sub : pyfloat -> pyfloat -> pyfloat)
    (class_prob : list (list pyfloat)) (i : nat) : pyfloat :=
  key (distances float_sub class_prob) i.

(** Ids that numpy holds as 64-bit integers, on which [isin] is exact. *)
Definition int64 (x : Z) : Prop := (- 2 ^ 63 <= x < 2 ^ 63)%Z.

Definition int64_ids (test_ids queryable_ids : list Z) : Prop :=
  Forall int64 test_ids /\ Forall int64 queryable_ids.

(** A fitter that always fails. *)
Definition fit_raising (time flx : list pyfloat) : result (list pyfloat) :=
  Raise (ValueError "fit failed").

(** The first word of [line] is [tag]. *)
Definition first_word_is (tag : string) (line : list string) : bool :=
  first_word tag line.

(** A line the loader reads as a [tag] line: more than one word, the first
    of them [tag]. *)
Definition has_tag (tag : string) (line : list string) : bool :=
  (1 <? length line) && first_word_is tag line.

(** The type of an object agrees with its code. *)
Definition code_and_type_agree (lc : LightCurve.t) : Prop :=
  (In (LightCurve.sncode lc) LightCurve.snibc
   /\ LightCurve.sntype lc = "Ibc")
  \/ (In (LightCurve.sncode lc) LightCurve.snii
      /\ LightCurve.sntype lc = "II")
  \/ (LightCurve.sncode lc = "0" /\ LightCurve.sntype lc = "Ia").

(** The five columns the loader takes from the photometry lines. *)
Definition photometry_columns : list string :=
  ["MJD"; "FLT"; "FLUXCAL"; "FLUXCALERR"; "SNR"].

(** A small file: an id, a code of the II set, the column names and two
    observations, with a blank line and a one-word line in between. *)
Definition example_file : list (list string) :=
  [ ["SNID:"; "7"];
    [];
    ["SIM_NON1a:"; "20"];
    ["END:"];
    ["VARLIST:"; "MJD"; "FLT"; "FIELD"; "FLUXCAL"; "FLUXCALERR"; "SNR"];
    ["OBS:"; "1.0"; "g"; "NULL"; "2.0"; "1"; "3"];
    ["OBS:"; "2.0"; "r"; "NULL"; "3.0"; "1"; "3"] ].

(** The same file without its code line. *)
Definition example_file_no_code : list (list string) :=
  [ ["SNID:"; "7"];
    ["VARLIST:"; "MJD"; "FLT"; "FIELD"; "FLUXCAL"; "FLUXCALERR"; "SNR"];
    ["OBS:"; "1.0"; "g"; "NULL"; "2.0"; "1"; "3"] ].

(** The words of a text, taken apart at blanks. *)
Fixpoint words_from (word text : string) : list string :=
  match text with
  | EmptyString => if String.eqb word "" then [] else [word]
  | String c text' =>
      if Ascii.eqb c " "%char
      then if String.eqb word "" then words_from "" text'
           else word :: words_from "" text'
      else words_from (word ++ String c "") text'
  end.

Definition words (text : string) : list string := words_from "" text.

(** The values a reader of the features file finds for one cell.  A cell
    is written as its text and a blank: the text of a number or of
    ['None'] is one word, the text of a string is the string, which holds
    as many values as it has words (none when it is blank). *)
Definition cell_values (c : cell) : nat :=
  match c with
  | CellStr s => length (words s)
  | CellInt _ | CellFloat _ | CellFeature _ => 1
  end.

(** The values on one line of the features file. *)
Definition row_values (cells : list cell) : nat :=
  list_sum (map cell_values cells).

(** A row of the features file that is complete: as many values as the
    header has column names, none of them ['None']. *)
Definition complete_row (cells : list cell) : Prop :=
  row_values cells = length (words header_text)
  /\ ~ In (CellFeature NoneStr) cells.

(** A light-curve file that states its sample and its code. *)
Definition states_sample_and_code (file : string * list (list string))
    : Prop :=
  str_contains "DES_SN" (fst file) = true ->
  existsb (has_tag "SNTYPE:") (snd file) = true
  /\ existsb (has_tag "SIM_NON1a:") (snd file) = true.

(** A file with five observations in each of the four filters. *)
Definition obs_line (b : string) : list string :=
  ["OBS:"; "1.0"; b; "NULL"; "2.0"; "1"; "3"].

Definition full_file : list (list string) :=
  [ ["SNID:"; "21"]; ["SIM_NON1a:"; "0"];
    ["VARLIST:"; "MJD"; "FLT"; "FIELD"; "FLUXCAL"; "FLUXCALERR"; "SNR"] ]
  ++ repeat (obs_line "g") 5 ++ repeat (obs_line "r") 5
  ++ repeat (obs_line "i") 5 ++ repeat (obs_line "z") 5.

Definition full_directory : list (string * list (list string)) :=
  [ ("DES_SN000021.DAT", full_file);
    ("DES_SN000017.DAT", example_file);
    ("DES_SN000022.DAT", full_file) ].

(** The same directory, each file with a [SNTYPE:] line. *)
Definition typed_directory : list (string * list (list string)) :=
  [ ("DES_SN000021.DAT", ["SNTYPE:"; "-9"] :: full_file);
    ("DES_SN000017.DAT", ["SNTYPE:"; "1"] :: example_file);
    ("README", [["no"; "light"; "curve"]]);
    ("DES_SN000022.DAT", ["SNTYPE:"; "3"] :: full_file) ].

(** * Properties *)

(** ** The sorting order *)

Lemma sort_leb_finite (a b : Q) :
  sort_leb (Finite a) (Finite b) = Qle_bool a b.
Proof.
  unfold sort_leb, sort_ltb; simpl.
  rewrite orb_false_r. apply negb_involutive.
Qed.

Lemma sort_leb_total (x y : pyfloat) :
  sort_leb x y = false -> sort_leb y x = true.
Proof.
  destruct x as [a| | |], y as [b| | |]; try (vm_compute; congruence).
  rewrite !sort_leb_finite. intros H.
  apply Qle_bool_iff. apply Qlt_le_weak. apply Qnot_le_lt.
  intros Hle. apply Qle_bool_iff in Hle. congruence.
Qed.

Lemma sort_leb_trans (x y z : pyfloat) :
  sort_leb x y = true -> sort_leb y z = true -> sort_leb x z = true.
Proof.
  destruct x as [a| | |], y as [b| | |], z as [c| | |];
    try (vm_compute; congruence).
  rewrite !sort_leb_finite, !Qle_bool_iff. apply Qle_trans.
Qed.


(** ** The reference sort meets the contract *)

Section InsertBy.

Variable keys : list pyfloat.
Variable before : nat -> nat -> bool.

Let le (i j : nat) : Prop := sort_leb (key keys i) (key keys j) = true.

Hypothesis before_true : forall i j, before i j = true -> le i j.
Hypothesis before_false : forall i j, before i j = false -> le j i.

Lemma insert_by_perm (i : nat) (l : list nat) :
  Permutation (i :: l) (insert_by before i l).
Proof.
  induction l as [|j l IH]; simpl; [apply Permutation_refl|].
  destruct (before i j); [apply Permutation_refl|].
  eapply perm_trans; [apply perm_swap|]. now apply perm_skip.
Qed.

Lemma insert_by_sorted (i : nat) (l : list nat) :
  StronglySorted le l -> StronglySorted le (insert_by before i l).
Proof.
  induction 1 as [|j l Hs IH Hj]; simpl.
  - repeat constructor.
  - destruct (before i j) eqn:E.
    + constructor; [now constructor|].
      apply before_true in E. constructor; [exact E|].
      eapply Forall_impl; [|exact Hj].
      intros k Hk. unfold le in *. eapply sort_leb_trans; eassumption.
    + constructor; [exact IH|].
      apply before_false in E.
      eapply Permutation_Forall; [apply insert_by_perm|].
      now constructor.
Qed.

Lemma fold_insert_by_perm (l : list nat) :
  Permutation l (fold_right (insert_by before) [] l).
Proof.
  induction l as [|i l IH]; simpl; [constructor|].
  eapply perm_trans; [|apply insert_by_perm]. now apply perm_skip.
Qed.

Lemma fold_insert_by_sorted (l : list nat) :
  StronglySorted le (fold_right (insert_by before) [] l).
Proof.
  induction l as [|i l IH]; simpl; [constructor|].
  now apply insert_by_sorted.
Qed.

End InsertBy.

Lemma argsort_stable_spec : argsort_spec argsort_stable.
Proof.
  intros keys. split.
  - apply fold_insert_by_perm.
  - apply fold_insert_by_sorted; intros i j H.
    + exact H.
    + now apply sort_leb_total.
Qed.

(** ** Array primitives *)

Lemma mapM_ok {A B : Type} (f : A -> result B) (g : A -> B) (l : list A) :
  Forall (fun a => f a = Ok (g a)) l -> mapM f l = Ok (map g l).
Proof.
  induction 1 as [|a l Ha _ IH]; simpl; [reflexivity|].
  now rewrite Ha, IH.
Qed.

Lemma getitem_ok {A : Type} (l : list A) (i : nat) (d : A) :
  i < length l -> getitem l i = Ok (nth i l d).
Proof.
  intros H. unfold getitem.
  now rewrite (nth_error_nth' l d H).
Qed.

Lemma take_ok {A : Type} (a : list A) (idx : list nat) (d : A) :
  Forall (fun i => i < length a) idx ->
  take a idx = Ok (map (fun i => nth i a d) idx).
Proof.
  intros H. apply mapM_ok.
  eapply Forall_impl; [|exact H]. intros i Hi. now apply getitem_ok.
Qed.

Lemma column_ok (m : list (list pyfloat)) :
  Forall (fun row => 2 <= length row) m -> column m 1 = Ok (prob_ia m).
Proof.
  intros H. apply mapM_ok.
  eapply Forall_impl; [|exact H]. intros row Hrow. apply getitem_ok. cbv beta in Hrow. lia.
Qed.

Lemma compress_map {A : Type} (f : A -> bool) (l : list A) :
  compress l (map f l) = filter f l.
Proof.
  induction l as [|a l IH]; simpl; [reflexivity|].
  rewrite IH. reflexivity.
Qed.

(** A boolean array computed from the array it indexes selects from it,
    provided the array is not empty. *)
Lemma mask_map {A : Type} (f : A -> bool) (l : list A) :
  l <> [] -> mask l (map f l) = Ok (filter f l).
Proof.
  destruct l as [|a l]; [contradiction|]. intros _.
  unfold mask. cbn [map].
  change (f a :: map f l) with (map f (a :: l)).
  now rewrite length_map, Nat.eqb_refl, compress_map.
Qed.

Lemma compress_length {A : Type} (a : list A) (flag : list bool) :
  length a = length flag -> length (compress a flag) = count_true flag.
Proof.
  revert flag. induction a as [|x a IH]; intros [|b flag] H;
    simpl in *; try reflexivity; try discriminate.
  injection H as H. unfold count_true in *. simpl.
  destruct b; simpl; now rewrite IH.
Qed.

Lemma list_index_in (l : list nat) (x : nat) :
  In x l -> exists i, list_index l x = Ok i.
Proof.
  induction l as [|y l IH]; simpl; [tauto|]. intros H.
  destruct (y =? x) eqn:E; [now exists 0|].
  destruct H as [H|H]; [subst; rewrite Nat.eqb_refl in E; discriminate|].
  destruct (IH H) as [i Hi]. exists (S i). now rewrite Hi.
Qed.

Lemma slice_to_nil {A : Type} (stop : Z) : slice_to (@nil A) stop = [].
Proof.
  unfold slice_to. destruct (0 <=? stop)%Z; apply firstn_nil.
Qed.

(** ** uncertainty_sampling *)

Lemma argsort_in_range (keys : list pyfloat) (order : list nat) :
  is_argsort keys order -> Forall (fun i => i < length keys) order.
Proof.
  intros [Hp _]. eapply Permutation_Forall; [exact Hp|].
  apply Forall_forall. intros i Hi. apply in_seq in Hi. lia.
Qed.

Lemma distances_length (float_sub : pyfloat -> pyfloat -> pyfloat)
    (class_prob : list (list pyfloat)) :
  length (distances float_sub class_prob) = length class_prob.
Proof. unfold distances, prob_ia. now rewrite !length_map. Qed.

(** On aligned inputs with at least one row the function returns the
    first [batch] rows of [ranking]; with [screen] set it first reads
    [final_order[0]].  With no row at all it raises at [order[flag]]. *)
Lemma uncertainty_sampling_with_eq
    (float_sub : pyfloat -> pyfloat -> pyfloat)
    (argsort : list pyfloat -> list nat)
    (class_prob : list (list pyfloat)) (test_ids queryable_ids : list Z)
    (batch : Z) (screen : bool) :
  is_argsort (distances float_sub class_prob)
             (argsort (distances float_sub class_prob)) ->
  aligned class_prob test_ids ->
  uncertainty_sampling_with float_sub argsort class_prob test_ids
                            queryable_ids batch screen
  = match class_prob with
    | [] => Raise IndexError
    | _ :: _ =>
        match ranking float_sub argsort class_prob test_ids queryable_ids,
              screen with
        | [], true => Raise IndexError
        | r, _ => Ok (slice_to r batch)
        end
    end.
Proof.
  intros Hsort [Hlen Hrows].
  pose proof (argsort_in_range _ _ Hsort) as Hrange.
  pose proof (Permutation_length (proj1 Hsort)) as Hsize.
  rewrite length_seq in Hsize.
  rewrite distances_length in Hrange, Hsize.
  unfold uncertainty_sampling_with, ranking.
  rewrite (column_ok _ Hrows). cbn [bind].
  fold (distances float_sub class_prob).
  set (order := argsort (distances float_sub class_prob)) in *.
  rewrite (take_ok test_ids order 0%Z) by now rewrite Hlen.
  cbn [bind]. rewrite map_map.
  destruct class_prob as [|row class_prob'].
  { destruct order; [reflexivity|discriminate Hsize]. }
  assert (Horder : order <> []) by (intros E; now rewrite E in Hsize).
  rewrite (mask_map _ order Horder). cbn [bind].
  change (fun x : nat => isin (nth x test_ids 0%Z) queryable_ids)
    with (queryable_row test_ids queryable_ids).
  set (final := filter _ order).
  destruct screen; [|now destruct final].
  assert (Hfin : Forall (fun i => i < length (row :: class_prob')) final).
  { apply Forall_forall. intros i Hi. apply filter_In in Hi.
    rewrite Forall_forall in Hrange. now apply Hrange. }
  rewrite (take_ok test_ids final 0%Z) by now rewrite Hlen.
  cbn [bind].
  destruct final as [|first rest] eqn:Efinal; [reflexivity|].
  cbn [getitem nth_error bind].
  assert (Hin : In first order).
  { assert (H : In first final) by (rewrite Efinal; now left).
    apply filter_In in H. tauto. }
  destruct (list_index_in order first Hin) as [k Hk]. rewrite Hk.
  cbn [bind].
  destruct order as [|top order'] eqn:Eorder; [contradiction|].
  cbn [getitem nth_error bind].
  inversion Hrange as [|? ? Htop _]; subst.
  inversion Hfin as [|? ? Hfirst _]; subst.
  fold (getitem (row :: class_prob') top).
  fold (getitem (row :: class_prob') first).
  rewrite (getitem_ok (row :: class_prob') top [] Htop).
  rewrite (getitem_ok (row :: class_prob') first [] Hfirst).
  reflexivity.
Qed.

Lemma ranking_nil (float_sub : pyfloat -> pyfloat -> pyfloat)
    (argsort : list pyfloat -> list nat)
    (class_prob : list (list pyfloat)) (test_ids queryable_ids : list Z) :
  is_argsort (distances float_sub class_prob)
             (argsort (distances float_sub class_prob)) ->
  length test_ids = length class_prob ->
  Forall (fun x => isin x queryable_ids = false) test_ids ->
  ranking float_sub argsort class_prob test_ids queryable_ids = [].
Proof.
  intros Hsort Hlen Hnone.
  apply argsort_in_range in Hsort. rewrite distances_length in Hsort.
  unfold ranking.
  induction Hsort as [|i order Hi _ IH]; simpl; [reflexivity|].
  unfold queryable_row at 1.
  rewrite Forall_forall in Hnone.
  rewrite (Hnone (nth i test_ids 0%Z)); [exact IH|].
  apply nth_In. now rewrite Hlen.
Qed.

(** Sorted lists stay sorted under [filter] and [firstn]. *)
Lemma StronglySorted_filter {A : Type} (R : A -> A -> Prop) (f : A -> bool)
    (l : list A) :
  StronglySorted R l -> StronglySorted R (filter f l).
Proof.
  induction 1 as [|a l _ IH Ha]; simpl; [constructor|].
  destruct (f a); [|exact IH].
  constructor; [exact IH|].
  apply Forall_forall. intros x Hx. apply filter_In in Hx.
  rewrite Forall_forall in Ha. now apply Ha.
Qed.

Lemma StronglySorted_firstn {A : Type} (R : A -> A -> Prop) (n : nat)
    (l : list A) :
  StronglySorted R l -> StronglySorted R (firstn n l).
Proof.
  intros H. revert n.
  induction H as [|a l _ IH Ha]; intros [|n]; simpl; try constructor.
  - apply IH.
  - apply Forall_forall. intros x Hx.
    rewrite Forall_forall in Ha. apply Ha.
    rewrite <- (firstn_skipn n l). apply in_or_app. now left.
Qed.

Lemma StronglySorted_slice_to {A : Type} (R : A -> A -> Prop) (stop : Z)
    (l : list A) :
  StronglySorted R l -> StronglySorted R (slice_to l stop).
Proof.
  intros H. unfold slice_to.
  destruct (0 <=? stop)%Z; now apply StronglySorted_firstn.
Qed.

(** A list has at most one sorted arrangement when the order has no ties
    on it. *)
Lemma sorted_perm_unique (R : nat -> nat -> Prop) (l1 l2 : list nat) :
  (forall i j, In i l1 -> In j l1 -> R i j -> R j i -> i = j) ->
  StronglySorted R l1 -> StronglySorted R l2 -> Permutation l1 l2 ->
  l1 = l2.
Proof.
  intros Hanti H1. revert l2.
  induction H1 as [|a l1 H1 IH Ha]; intros l2 H2 Hp.
  - now apply Permutation_nil in Hp.
  - destruct H2 as [|b l2 H2 Hb].
    + apply Permutation_sym, Permutation_nil in Hp. discriminate.
    + assert (Hab : a = b).
      { assert (Ina : In a (b :: l2))
          by (eapply Permutation_in; [exact Hp|now left]).
        assert (Inb : In b (a :: l1))
          by (eapply Permutation_in;
              [apply Permutation_sym; exact Hp|now left]).
        destruct Ina as [->|Ina]; [reflexivity|].
        destruct Inb as [->|Inb]; [reflexivity|].
        rewrite Forall_forall in Ha, Hb.
        apply Hanti; [now left|now right|now apply Ha|now apply Hb]. }
      subst b. f_equal.
      apply IH; [|exact H2|eapply Permutation_cons_inv; exact Hp].
      intros i j Hi Hj. apply Hanti; now right.
Qed.

Lemma argsort_unique (keys : list pyfloat) (o1 o2 : list nat) :
  no_ties keys -> is_argsort keys o1 -> is_argsort keys o2 -> o1 = o2.
Proof.
  intros Hties [Hp1 Hs1] [Hp2 Hs2].
  eapply sorted_perm_unique; [|exact Hs1|exact Hs2|].
  - intros i j Hi Hj. apply Hties.
    + apply (Permutation_in _ (Permutation_sym Hp1)) in Hi.
      apply in_seq in Hi. lia.
    + apply (Permutation_in _ (Permutation_sym Hp1)) in Hj.
      apply in_seq in Hj. lia.
  - eapply perm_trans; [apply Permutation_sym; exact Hp1|exact Hp2].
Qed.

Lemma no_tiesb_sound (keys : list pyfloat) :
  no_tiesb keys = true -> no_ties keys.
Proof.
  unfold no_tiesb. intros H i j Hi Hj Hij Hji.
  rewrite forallb_forall in H.
  specialize (H i). rewrite forallb_forall in H.
  assert (Hi' : In i (seq 0 (length keys))) by (apply in_seq; lia).
  assert (Hj' : In j (seq 0 (length keys))) by (apply in_seq; lia).
  specialize (H Hi' j Hj'). rewrite Hij, Hji in H. simpl in H.
  rewrite orb_false_r in H. now apply Nat.eqb_eq.
Qed.

(** With [screen] off and a batch of zero nothing is selected from a pool
    that has a row. *)
Lemma uncertainty_sampling_batch_zero (argsort : list pyfloat -> list nat)
    (class_prob : list (list pyfloat)) (test_ids queryable_ids : list Z) :
  argsort_spec argsort -> aligned class_prob test_ids ->
  class_prob <> [] ->
  uncertainty_sampling argsort class_prob test_ids queryable_ids 0 false
  = Ok [].
Proof.
  intros Hsort Hal Hrow. unfold uncertainty_sampling.
  rewrite uncertainty_sampling_with_eq by (auto using Hsort).
  destruct class_prob; [contradiction|].
  now destruct (ranking _ _ _ _ _).
Qed.

(** C1, as the code has it: on the worked input the function returns the
    row indices [[2; 0]], whatever sort [argsort] uses; these are the rows
    of the ids 30 and 10.  The list returned holds positions in
    [test_ids], not ids. *)
Theorem uncertainty_sampling_example_rows
    (argsort : list pyfloat -> list nat) :
  argsort_spec argsort ->
  uncertainty_sampling argsort example_class_prob example_test_ids
                       example_queryable_ids 2 false = Ok [2; 0]
  /\ take example_test_ids [2; 0] = Ok [30; 10]%Z.
Proof.
  intros Hsort. split; [|reflexivity].
  unfold uncertainty_sampling. rewrite uncertainty_sampling_with_eq.
  - unfold ranking.
    rewrite (argsort_unique (distances fsub example_class_prob)
               (argsort (distances fsub example_class_prob))
               (argsort_stable (distances fsub example_class_prob))).
    + reflexivity.
    + apply no_tiesb_sound. reflexivity.
    + apply Hsort.
    + apply argsort_stable_spec.
  - apply Hsort.
  - split; [reflexivity|]. repeat constructor.
Qed.

Lemma uncertainty_sampling_example_rows_witness :
  uncertainty_sampling argsort_stable example_class_prob example_test_ids
                       example_queryable_ids 2 false = Ok [2; 0]
  /\ take example_test_ids [2; 0] = Ok [30; 10]%Z.
Proof.
  apply (uncertainty_sampling_example_rows argsort_stable).
  exact argsort_stable_spec.
Defined.

(** C1 as stated fails: the value returned on the worked input is not the
    id list [[30; 10]]. *)
Lemma uncertainty_sampling_example_not_ids :
  uncertainty_sampling argsort_stable example_class_prob example_test_ids
                       example_queryable_ids 2 false = Ok [2; 0]
  /\ uncertainty_sampling argsort_stable example_class_prob example_test_ids
                          example_queryable_ids 2 false <> Ok [30; 10].
Proof. split; [reflexivity|discriminate]. Qed.

(** C10: when no id of [test_ids] is queryable, the call with [screen] set
    raises [IndexError]; the call without it returns the empty list,
    unless the pool has no row at all, where it raises as well (at
    [order[flag]]). *)
Theorem uncertainty_sampling_screen_empty_pool
    (argsort : list pyfloat -> list nat)
    (class_prob : list (list pyfloat)) (test_ids queryable_ids : list Z)
    (batch : Z) :
  argsort_spec argsort -> aligned class_prob test_ids ->
  int64_ids test_ids queryable_ids ->
  Forall (fun x => isin x queryable_ids = false) test_ids ->
  uncertainty_sampling argsort class_prob test_ids queryable_ids batch true
  = Raise IndexError
  /\ uncertainty_sampling argsort class_prob test_ids queryable_ids batch
                          false
     = match class_prob with
       | [] => Raise IndexError
       | _ :: _ => Ok []
       end.
Proof.
  intros Hsort Hal _ Hnone. unfold uncertainty_sampling.
  rewrite !uncertainty_sampling_with_eq by (auto using Hsort).
  rewrite ranking_nil; [|apply Hsort|apply Hal|exact Hnone].
  destruct class_prob; split; try reflexivity.
  now rewrite slice_to_nil.
Qed.

Lemma example_int64_ids (queryable_ids : list Z) :
  Forall int64 queryable_ids -> int64_ids example_test_ids queryable_ids.
Proof.
  intros H. split; [|exact H].
  repeat constructor; unfold int64; lia.
Defined.

Lemma uncertainty_sampling_screen_empty_pool_witness :
  uncertainty_sampling argsort_stable example_class_prob example_test_ids
                       [50; 60]%Z 2 true = Raise IndexError
  /\ uncertainty_sampling argsort_stable example_class_prob example_test_ids
                          [50; 60]%Z 2 false = Ok [].
Proof.
  apply (uncertainty_sampling_screen_empty_pool argsort_stable
           example_class_prob example_test_ids [50; 60]%Z 2).
  - exact argsort_stable_spec.
  - split; [reflexivity|]. repeat constructor.
  - apply example_int64_ids. repeat constructor; unfold int64; lia.
  - repeat constructor.
Defined.

(** ** random_sampling *)

(** The module binds no name [order]. *)
Lemma order_unbound : lookup "order" module_globals = None.
Proof. reflexivity. Qed.

(** Once the indices are drawn, the next line raises [NameError]. *)
Lemma random_sampling_name_error
    (randint : Z -> nat -> nat -> result (list nat))
    (test_ids queryable_ids : list Z) (batch seed : Z) (screen : bool)
    (indx : list nat) :
  randint seed (length test_ids) (length test_ids) = Ok indx ->
  random_sampling randint module_globals test_ids queryable_ids batch seed
                  screen = Raise (NameError "order").
Proof.
  intros H. unfold random_sampling. rewrite H. reflexivity.
Qed.

(** C2, on the code: no call of [random_sampling] returns.  Whatever the
    generator draws, the call ends in an exception, so two calls never
    produce output sequences to compare. *)
Theorem random_sampling_never_returns
    (randint : Z -> nat -> nat -> result (list nat))
    (test_ids queryable_ids : list Z) (batch seed : Z) (screen : bool) :
  exists e,
    random_sampling randint module_globals test_ids queryable_ids batch
                    seed screen = Raise e.
Proof.
  destruct (randint seed (length test_ids) (length test_ids)) as [indx|e]
    eqn:E.
  - exists (NameError "order"). now apply random_sampling_name_error with indx.
  - exists e. unfold random_sampling. now rewrite E.
Qed.

(** C3, on the code: [random_sampling] with a batch of zero, and with no
    queryable id, raises [NameError] instead of returning the empty
    list. *)
Theorem random_sampling_empty_cases_raise :
  random_sampling randint_zeros module_globals [10; 20]%Z [10]%Z 0 42 false
  = Raise (NameError "order")
  /\ random_sampling randint_zeros module_globals [10; 20]%Z [] 1 42 false
     = Raise (NameError "order").
Proof. split; reflexivity. Qed.

(** ** fit_bazin and fit_bazin_all *)

Import LightCurve.

Lemma filter_flag_length (lc : t) (b : string) :
  length (filter_flag lc b) = length (photometry lc).
Proof. unfold filter_flag. apply length_map. Qed.

Lemma band_times_length (lc : t) (b : string) :
  length (band_times lc b) = band_rows lc b.
Proof.
  unfold band_times, band_rows. apply compress_length.
  now rewrite length_map, filter_flag_length.
Qed.

Lemma band_fluxes_length (lc : t) (b : string) :
  length (band_fluxes lc b) = band_rows lc b.
Proof.
  unfold band_fluxes, band_rows. apply compress_length.
  now rewrite length_map, filter_flag_length.
Qed.

(** [fit_bazin] hands the fitter the band's times less the first of them. *)
Lemma fit_bazin_eq
    (fit_scipy : list pyfloat -> list pyfloat -> result (list pyfloat))
    (lc : t) (b : string) :
  fit_bazin fit_scipy lc b
  = match band_times lc b with
    | [] => Raise IndexError
    | t0 :: _ =>
        fit_scipy (map (fun x => fsub x t0) (band_times lc b))
                  (band_fluxes lc b)
    end.
Proof.
  unfold fit_bazin. fold (band_times lc b) (band_fluxes lc b).
  now destruct (band_times lc b).
Qed.

Lemma fit_bazin_ok
    (fit_scipy : list pyfloat -> list pyfloat -> result (list pyfloat))
    (lc : t) (b : string) :
  fitter_contract fit_scipy -> 4 < band_rows lc b ->
  exists p, fit_bazin fit_scipy lc b = Ok p /\ length p = 5.
Proof.
  intros Hfit Hrows. rewrite fit_bazin_eq.
  pose proof (band_times_length lc b) as Ht.
  destruct (band_times lc b) as [|t0 rest] eqn:E;
    [simpl in Ht; lia|].
  apply Hfit.
  - rewrite length_map. lia.
  - rewrite length_map, band_fluxes_length. lia.
Qed.

Lemma count_nan_zero (best_fit : list pyfloat) :
  (count_true (map str_is_nan best_fit) =? 0) = negb (existsb is_nan best_fit).
Proof.
  unfold count_true, str_is_nan.
  induction best_fit as [|x l IH]; simpl; [reflexivity|].
  destruct (is_nan x); simpl; [reflexivity|exact IH].
Qed.

(** A band with at most four rows gets five ['None'], whatever the fitter. *)
Lemma fit_band_short
    (fit_scipy : list pyfloat -> list pyfloat -> result (list pyfloat))
    (lc : t) (features : list feature) (b : string) :
  band_rows lc b <= 4 ->
  fit_band fit_scipy lc features b = Ok (features ++ repeat NoneStr 5).
Proof.
  intros H. unfold fit_band. fold (band_rows lc b).
  destruct (4 <? band_rows lc b) eqn:E; [|reflexivity].
  apply Nat.ltb_lt in E. lia.
Qed.

(** A band with more than four rows gets the fit, or five ['None'] when
    the fit holds a NaN. *)
Lemma fit_band_long
    (fit_scipy : list pyfloat -> list pyfloat -> result (list pyfloat))
    (lc : t) (features : list feature) (b : string) (best_fit : list pyfloat) :
  4 < band_rows lc b -> fit_bazin fit_scipy lc b = Ok best_fit ->
  fit_band fit_scipy lc features b
  = Ok (features ++ if existsb is_nan best_fit
                    then repeat NoneStr 5 else map Fit best_fit).
Proof.
  intros Hrows Hfit. unfold fit_band. fold (band_rows lc b).
  apply Nat.ltb_lt in Hrows. rewrite Hrows, Hfit. cbn [bind].
  rewrite count_nan_zero. now destruct (existsb is_nan best_fit).
Qed.

(** A pass of the loop appends to the list what it would put in an empty
    one. *)
Lemma fit_band_app
    (fit_scipy : list pyfloat -> list pyfloat -> result (list pyfloat))
    (lc : t) (features : list feature) (b : string) :
  fit_band fit_scipy lc features b
  = (block <- fit_band fit_scipy lc [] b ;; Ok (features ++ block)).
Proof.
  unfold fit_band. destruct (4 <? _); [|reflexivity].
  destruct (fit_bazin fit_scipy lc b) as [p|e]; [|reflexivity].
  cbn [bind]. now destruct (_ =? 0).
Qed.

(** Each pass of the loop appends five entries. *)
Lemma fit_band_block
    (fit_scipy : list pyfloat -> list pyfloat -> result (list pyfloat))
    (lc : t) (b : string) :
  fitter_contract fit_scipy ->
  exists block, fit_band fit_scipy lc [] b = Ok block /\ length block = 5.
Proof.
  intros Hfit.
  destruct (Nat.le_gt_cases (band_rows lc b) 4) as [Hle|Hgt].
  - exists (repeat NoneStr 5). split; [|reflexivity].
    now apply (fit_band_short fit_scipy lc []).
  - destruct (fit_bazin_ok fit_scipy lc b Hfit Hgt) as [p [Hp Hlen]].
    exists (if existsb is_nan p then repeat NoneStr 5 else map Fit p).
    split; [now apply (fit_band_long fit_scipy lc [])|].
    destruct (existsb is_nan p); [reflexivity|].
    now rewrite length_map.
Qed.

(** The loop appends, band after band, the block of each band. *)
Lemma fit_bands_blocks
    (fit_scipy : list pyfloat -> list pyfloat -> result (list pyfloat))
    (lc : t) (bands : list string) :
  fitter_contract fit_scipy ->
  forall features, exists blocks,
    fit_bands fit_scipy lc features bands = Ok (features ++ concat blocks)
    /\ Forall2 (fun b block =>
         fit_band fit_scipy lc [] b = Ok block /\ length block = 5)
       bands blocks.
Proof.
  intros Hfit. induction bands as [|b bands IH]; intros features.
  - exists []. simpl. now rewrite app_nil_r.
  - destruct (fit_band_block fit_scipy lc b Hfit) as [block [Hb Hlen]].
    destruct (IH (features ++ block)) as [blocks [Hbs Hall]].
    exists (block :: blocks). simpl.
    rewrite fit_band_app, Hb. cbn [bind].
    rewrite Hbs, <- app_assoc. split; [reflexivity|].
    constructor; [now split|exact Hall].
Qed.

Lemma blocks_uniform {A B : Type} (P : A -> list B -> Prop) (n : nat)
    (bands : list A) (blocks : list (list B)) :
  Forall2 (fun b block => P b block /\ length block = n) bands blocks ->
  Forall (fun block => length block = n) blocks.
Proof.
  induction 1 as [|b block bands blocks [_ Hlen] _ IH]; constructor;
    assumption.
Qed.

Lemma concat_blocks_length {A : Type} (n : nat) (blocks : list (list A)) :
  Forall (fun block => length block = n) blocks ->
  length (concat blocks) = n * length blocks.
Proof.
  induction 1 as [|block blocks Hb _ IH]; simpl; [lia|].
  rewrite length_app, IH, Hb. lia.
Qed.

Lemma concat_blocks_nth {A : Type} (n : nat) (blocks : list (list A))
    (k j : nat) (block : list A) :
  Forall (fun block => length block = n) blocks ->
  nth_error blocks k = Some block -> j < n ->
  nth_error (concat blocks) (n * k + j) = nth_error block j.
Proof.
  intros Hall. revert k.
  induction Hall as [|blk blocks Hb _ IH]; intros [|k] Hk Hj;
    simpl in Hk; try discriminate.
  - injection Hk as ->. simpl. rewrite Nat.mul_0_r. simpl.
    apply nth_error_app1. lia.
  - simpl. rewrite nth_error_app2 by lia.
    replace (n * S k + j - length blk) with (n * k + j) by lia.
    now apply IH.
Qed.

(** The slots [5k .. 5k+4] of the stored list are the block of band [k]. *)
Lemma band_slots
    (fit_scipy : list pyfloat -> list pyfloat -> result (list pyfloat))
    (lc : t) (k : nat) (b : string) :
  fitter_contract fit_scipy ->
  nth_error (filters lc) k = Some b ->
  exists lc' block,
    fit_bazin_all fit_scipy lc = Ok lc'
    /\ fit_band fit_scipy lc [] b = Ok block
    /\ forall j, j < 5 ->
         nth_error (bazin_features lc') (5 * k + j) = nth_error block j.
Proof.
  intros Hfit Hk.
  destruct (fit_bands_blocks fit_scipy lc (filters lc) Hfit [])
    as [blocks [Hrun Hall]].
  pose proof (blocks_uniform _ _ _ _ Hall) as Hlens.
  assert (Hblock : exists block,
             nth_error blocks k = Some block
             /\ fit_band fit_scipy lc [] b = Ok block).
  { clear - Hall Hk. revert k Hk.
    induction Hall as [|b' block bands blocks [Hb _] _ IH];
      intros [|k] Hk; simpl in Hk; try discriminate.
    - injection Hk as ->. now exists block.
    - now apply IH. }
  destruct Hblock as [block [Hnth Hb]].
  exists (set_bazin_features lc (concat blocks)), block.
  unfold fit_bazin_all. rewrite Hrun. split; [reflexivity|].
  split; [exact Hb|]. intros j Hj.
  change (bazin_features (set_bazin_features lc (concat blocks)))
    with (concat blocks).
  now apply concat_blocks_nth.
Qed.

Lemma nth_error_repeat_none (j : nat) :
  j < 5 -> nth_error (repeat NoneStr 5) j = Some NoneStr.
Proof.
  intros Hj. do 5 (destruct j as [|j]; [reflexivity|]). lia.
Qed.

(** C4: whatever the photometry holds, [fit_bazin_all] returns, and the
    feature list it stores has five entries for each declared band. *)
Theorem bazin_features_length
    (fit_scipy : list pyfloat -> list pyfloat -> result (list pyfloat))
    (lc : t) :
  fitter_contract fit_scipy ->
  exists lc',
    fit_bazin_all fit_scipy lc = Ok lc'
    /\ length (bazin_features lc') = 5 * length (filters lc).
Proof.
  intros Hfit.
  destruct (fit_bands_blocks fit_scipy lc (filters lc) Hfit [])
    as [blocks [Hrun Hall]].
  exists (set_bazin_features lc (concat blocks)).
  unfold fit_bazin_all. rewrite Hrun. split; [reflexivity|].
  change (bazin_features (set_bazin_features lc (concat blocks)))
    with (concat blocks).
  rewrite (concat_blocks_length 5).
  - now rewrite (Forall2_length Hall).
  - exact (blocks_uniform _ _ _ _ Hall).
Qed.

Lemma fit_fixed_contract : fitter_contract fit_fixed.
Proof.
  intros time flx Hlen _. unfold fit_fixed.
  apply Nat.ltb_lt in Hlen. rewrite Hlen. now eexists.
Defined.

Lemma fit_nan_contract : fitter_contract fit_nan.
Proof. intros time flx _ _. now eexists. Defined.

Lemma bazin_features_length_witness :
  exists lc',
    fit_bazin_all fit_fixed example_lc = Ok lc'
    /\ length (bazin_features lc') = 5 * length (filters example_lc).
Proof.
  apply (bazin_features_length fit_fixed example_lc).
  exact fit_fixed_contract.
Defined.

(** C5: a band with at most four rows is not fitted.  The pass of the loop
    for that band appends five ['None'] for every fitter, also one that
    would raise on so few points; and in the list [fit_bazin_all] stores,
    the five slots of the band all hold ['None']. *)
Theorem short_band_is_missing
    (fit_scipy : list pyfloat -> list pyfloat -> result (list pyfloat))
    (lc : t) (k : nat) (b : string) :
  fitter_contract fit_scipy ->
  nth_error (filters lc) k = Some b ->
  band_rows lc b <= 4 ->
  (forall any_fit features,
     fit_band any_fit lc features b = Ok (features ++ repeat NoneStr 5))
  /\ exists lc',
       fit_bazin_all fit_scipy lc = Ok lc'
       /\ forall j, j < 5 ->
            nth_error (bazin_features lc') (5 * k + j) = Some NoneStr.
Proof.
  intros Hfit Hk Hrows. split.
  - intros any_fit features. now apply fit_band_short.
  - destruct (band_slots fit_scipy lc k b Hfit Hk)
      as [lc' [block [Hrun [Hb Hslots]]]].
    exists lc'. split; [exact Hrun|]. intros j Hj.
    rewrite (fit_band_short fit_scipy lc [] b Hrows) in Hb.
    injection Hb as <-. rewrite (Hslots j Hj).
    now apply nth_error_repeat_none.
Qed.

Lemma short_band_is_missing_witness :
  (forall any_fit features,
     fit_band any_fit example_lc features "r"
     = Ok (features ++ repeat NoneStr 5))
  /\ exists lc',
       fit_bazin_all fit_fixed example_lc = Ok lc'
       /\ forall j, j < 5 ->
            nth_error (bazin_features lc') (5 * 1 + j) = Some NoneStr.
Proof.
  apply (short_band_is_missing fit_fixed example_lc 1 "r").
  - exact fit_fixed_contract.
  - reflexivity.
  - vm_compute. lia.
Defined.

(** C6, as the code has it: the test is on NaN alone.  When the fit of a
    band holds a NaN, the five slots of the band all hold ['None']; when
    it holds none, the slots hold the fit as it was returned, infinite
    values included. *)
Theorem fit_with_nan_is_missing
    (fit_scipy : list pyfloat -> list pyfloat -> result (list pyfloat))
    (lc : t) (k : nat) (b : string) (best_fit : list pyfloat) :
  fitter_contract fit_scipy ->
  nth_error (filters lc) k = Some b ->
  4 < band_rows lc b ->
  fit_bazin fit_scipy lc b = Ok best_fit ->
  exists lc',
    fit_bazin_all fit_scipy lc = Ok lc'
    /\ forall j, j < 5 ->
         nth_error (bazin_features lc') (5 * k + j)
         = if existsb is_nan best_fit then Some NoneStr
           else option_map Fit (nth_error best_fit j).
Proof.
  intros Hfit Hk Hrows Hbest.
  destruct (band_slots fit_scipy lc k b Hfit Hk)
    as [lc' [block [Hrun [Hb Hslots]]]].
  exists lc'. split; [exact Hrun|]. intros j Hj.
  rewrite (fit_band_long fit_scipy lc [] b best_fit Hrows Hbest) in Hb.
  injection Hb as <-. rewrite (Hslots j Hj).
  destruct (existsb is_nan best_fit).
  - now apply nth_error_repeat_none.
  - apply nth_error_map.
Qed.

Lemma fit_with_nan_is_missing_witness :
  exists lc',
    fit_bazin_all fit_nan example_lc = Ok lc'
    /\ forall j, j < 5 ->
         nth_error (bazin_features lc') (5 * 0 + j) = Some NoneStr.
Proof.
  apply (fit_with_nan_is_missing fit_nan example_lc 0 "g"
           [Finite 1; Finite 2; NaN; Finite 4; Finite 5]).
  - exact fit_nan_contract.
  - reflexivity.
  - vm_compute. lia.
  - reflexivity.
Defined.

(** C6 as stated fails: a fit whose amplitude is infinite is stored as it
    is, next to its finite parameters. *)
Lemma fit_with_infinity_is_kept :
  fit_bazin fit_infinite example_lc "g"
  = Ok [PosInf; Finite 2; Finite 3; Finite 4; Finite 5]
  /\ is_finite PosInf = false
  /\ exists lc',
       fit_bazin_all fit_infinite example_lc = Ok lc'
       /\ firstn 5 (bazin_features lc')
          = [Fit PosInf; Fit (Finite 2); Fit (Finite 3); Fit (Finite 4);
             Fit (Finite 5)].
Proof.
  split; [reflexivity|]. split; [reflexivity|].
  eexists. split; reflexivity.
Qed.

(** ** The time shift *)







(** ** load_snpcc_lc *)

Lemma str_in_In (x : string) (l : list string) :
  str_in x l = true <-> In x l.
Proof.
  unfold str_in. rewrite existsb_exists. split.
  - intros [y [Hy E]]. apply String.eqb_eq in E. now subst.
  - intros H. exists x. split; [exact H|apply String.eqb_refl].
Qed.

Lemma str_in_not_In (x : string) (l : list string) :
  ~ In x l -> str_in x l = false.
Proof.
  intros H. destruct (str_in x l) eqn:E; [|reflexivity].
  apply str_in_In in E. contradiction.
Qed.

(** The two membership sets share no code. *)
Lemma snii_not_snibc (code : string) :
  In code snii -> str_in code snibc = false.
Proof.
  unfold snii. intros H.
  repeat (destruct H as [<-|H]; [reflexivity|]). contradiction.
Qed.

Section LoadFacts.

Variable py_int : string -> result Z.
Variable py_float : string -> result pyfloat.

Lemma read_line_sim_non1a (st : loader) (code : string)
    (rest : list string) :
  read_line py_int py_float st ("SIM_NON1a:" :: code :: rest)
  = if str_in code snibc then Ok (labelled st code "Ibc")
    else if str_in code snii then Ok (labelled st code "II")
    else if String.eqb code "0" then Ok (labelled st code "Ia")
    else Raise (ValueError "Unknown supernova type!").
Proof. reflexivity. Qed.

(** A line that raises makes the whole loop raise. *)
Lemma read_lines_raise (line : list string) (data : list (list string)) :
  In line data ->
  (forall st, exists e, read_line py_int py_float st line = Raise e) ->
  forall st, exists e, read_lines py_int py_float st data = Raise e.
Proof.
  intros Hin Hline. induction data as [|l data IH]; [contradiction|].
  intros st. simpl.
  destruct Hin as [->|Hin].
  - destruct (Hline st) as [e He]. exists e. now rewrite He.
  - destruct (read_line py_int py_float st l) as [st'|e].
    + apply (IH Hin).
    + now exists e.
Qed.

End LoadFacts.

(** C8: a [SIM_NON1a:] line with a code of the Ibc set gives the type
    Ibc, with a code of the II set the type II, and with the code 0 the
    type Ia.  With any other code the line raises [ValueError], and so
    does the loading of every file that holds such a line: no type is
    assigned. *)
Theorem sim_code_label
    (py_int : string -> result Z) (py_float : string -> result pyfloat)
    (st : loader) (code : string) (rest : list string) :
  let line := "SIM_NON1a:" :: code :: rest in
  (In code snibc ->
     read_line py_int py_float st line = Ok (labelled st code "Ibc"))
  /\ (In code snii ->
        read_line py_int py_float st line = Ok (labelled st code "II"))
  /\ (code = "0" ->
        read_line py_int py_float st line = Ok (labelled st code "Ia"))
  /\ (~ In code snibc -> ~ In code snii -> code <> "0" ->
        read_line py_int py_float st line
        = Raise (ValueError "Unknown supernova type!")
        /\ forall lc data_all, In line data_all ->
             exists e, load_snpcc_lc py_int py_float lc data_all = Raise e).
Proof.
  intros line. unfold line. repeat split.
  - intros H. rewrite read_line_sim_non1a.
    apply str_in_In in H. now rewrite H.
  - intros H. rewrite read_line_sim_non1a.
    rewrite (snii_not_snibc code H).
    apply str_in_In in H. now rewrite H.
  - intros ->. reflexivity.
  - rewrite read_line_sim_non1a.
    rewrite (str_in_not_In _ _ H), (str_in_not_In _ _ H0).
    apply String.eqb_neq in H1. now rewrite H1.
  - intros lc data_all Hin. unfold load_snpcc_lc.
    destruct data_all as [|line0 lines] eqn:Edata; [contradiction|].
    rewrite <- Edata in *.
    set (data := filter _ data_all). set (st0 := Build_loader _ _ _).
    destruct (read_lines_raise py_int py_float
                ("SIM_NON1a:" :: code :: rest) data) with (st := st0)
      as [e He].
    + apply filter_In. split; [exact Hin|reflexivity].
    + intros st1. eexists. rewrite read_line_sim_non1a.
      rewrite (str_in_not_In _ _ H), (str_in_not_In _ _ H0).
      apply String.eqb_neq in H1. rewrite H1. reflexivity.
    + exists e. now rewrite He.
Qed.

Lemma sim_code_label_witness :
  read_line int_any float_any (Build_loader init [] [])
            ["SIM_NON1a:"; "20"]
  = Ok (labelled (Build_loader init [] []) "20" "II")
  /\ read_line int_any float_any (Build_loader init [] [])
               ["SIM_NON1a:"; "99"]
     = Raise (ValueError "Unknown supernova type!")
  /\ exists e,
       load_snpcc_lc int_any float_any init
                     [["SNID:"; "7"]; ["SIM_NON1a:"; "99"]]
       = Raise e.
Proof.
  split.
  - apply (sim_code_label int_any float_any (Build_loader init [] [])
             "20" []).
    unfold snii. simpl. tauto.
  - destruct (sim_code_label int_any float_any (Build_loader init [] [])
                "99" []) as [_ [_ [_ H]]].
    destruct H as [Hline Hload].
    + unfold snibc. simpl. intros H.
      repeat (destruct H as [H|H]; [discriminate H|]). exact H.
    + unfold snii. simpl. intros H.
      repeat (destruct H as [H|H]; [discriminate H|]). exact H.
    + discriminate.
    + split; [exact Hline|]. apply Hload. simpl. tauto.
Defined.

(** * Further properties of the code *)

(** ** uncertainty_sampling: what a selection holds *)

Lemma isin_In (x : Z) (values : list Z) : isin x values = true <-> In x values.
Proof.
  unfold isin. rewrite existsb_exists. split.
  - intros [y [Hy E]]. apply Z.eqb_eq in E. now subst.
  - intros H. exists x. split; [exact H|apply Z.eqb_refl].
Qed.

Lemma Permutation_filter_same {A : Type} (f : A -> bool) (l l' : list A) :
  Permutation l l' -> Permutation (filter f l) (filter f l').
Proof.
  induction 1 as [|x l l' _ IH|x y l|l l' l'' _ IH1 _ IH2]; simpl.
  - constructor.
  - destruct (f x); [now constructor|exact IH].
  - destruct (f x), (f y); try apply Permutation_refl. apply perm_swap.
  - eapply perm_trans; eassumption.
Qed.

Lemma in_slice_to {A : Type} (l : list A) (stop : Z) (x : A) :
  In x (slice_to l stop) -> In x l.
Proof.
  unfold slice_to. intros H.
  destruct (0 <=? stop)%Z;
    match type of H with In _ (firstn ?n _) =>
      rewrite <- (firstn_skipn n l); apply in_or_app; now left
    end.
Qed.

Lemma NoDup_firstn {A : Type} (n : nat) (l : list A) :
  NoDup l -> NoDup (firstn n l).
Proof.
  intros H. rewrite <- (firstn_skipn n l) in H.
  now apply NoDup_app_remove_r in H.
Qed.

(** The ranking is the queryable rows, rearranged. *)
Lemma ranking_pool (float_sub : pyfloat -> pyfloat -> pyfloat)
    (argsort : list pyfloat -> list nat)
    (class_prob : list (list pyfloat)) (test_ids queryable_ids : list Z) :
  argsort_spec argsort ->
  Permutation (pool_rows class_prob test_ids queryable_ids)
              (ranking float_sub argsort class_prob test_ids queryable_ids).
Proof.
  intros Hsort. unfold pool_rows, ranking.
  apply Permutation_filter_same.
  rewrite <- (distances_length float_sub class_prob). apply Hsort.
Qed.

Lemma uncertainty_sampling_quiet (float_sub : pyfloat -> pyfloat -> pyfloat)
    (argsort : list pyfloat -> list nat)
    (class_prob : list (list pyfloat)) (test_ids queryable_ids : list Z)
    (batch : Z) :
  argsort_spec argsort -> aligned class_prob test_ids ->
  class_prob <> [] ->
  uncertainty_sampling_with float_sub argsort class_prob test_ids
                            queryable_ids batch false
  = Ok (slice_to (ranking float_sub argsort class_prob test_ids
                          queryable_ids) batch).
Proof.
  intros Hsort Hal Hrow.
  rewrite uncertainty_sampling_with_eq by (auto using Hsort).
  destruct class_prob; [contradiction|].
  now destruct (ranking _ _ _ _ _).
Qed.

(** X1: from a pool that has a row, with ids that are 64-bit integers,
    every row that is selected is a row whose id is in [queryable_ids],
    and no row is selected twice.  This holds however the subtraction
    rounds. *)
Theorem uncertainty_sampling_selects_queryable
    (float_sub : pyfloat -> pyfloat -> pyfloat)
    (argsort : list pyfloat -> list nat)
    (class_prob : list (list pyfloat)) (test_ids queryable_ids : list Z)
    (batch : Z) :
  argsort_spec argsort -> aligned class_prob test_ids ->
  class_prob <> [] -> int64_ids test_ids queryable_ids ->
  exists out,
    uncertainty_sampling_with float_sub argsort class_prob test_ids
                              queryable_ids batch false = Ok out
    /\ NoDup out
    /\ Forall (fun i => exists x, nth_error test_ids i = Some x
                                  /\ In x queryable_ids) out.
Proof.
  intros Hsort Hal Hrow _. eexists.
  split; [now apply uncertainty_sampling_quiet|].
  pose proof (ranking_pool float_sub argsort class_prob test_ids
                queryable_ids Hsort) as Hperm.
  split.
  - unfold slice_to. destruct (0 <=? batch)%Z; apply NoDup_firstn;
      (eapply Permutation_NoDup; [exact Hperm|]);
      apply NoDup_filter, seq_NoDup.
  - apply Forall_forall. intros i Hi. apply in_slice_to in Hi.
    apply (Permutation_in _ (Permutation_sym Hperm)) in Hi.
    apply filter_In in Hi. destruct Hi as [Hrange Hq].
    apply in_seq in Hrange. destruct Hal as [Hlen _].
    exists (nth i test_ids 0%Z). split.
    + apply nth_error_nth'. lia.
    + now apply isin_In.
Qed.

Lemma example_aligned : aligned example_class_prob example_test_ids.
Proof. split; [reflexivity|]. repeat constructor. Defined.

Lemma example_rows : example_class_prob <> [].
Proof. discriminate. Defined.

Lemma example_ids :
  int64_ids example_test_ids example_queryable_ids.
Proof.
  apply example_int64_ids. repeat constructor; unfold int64; lia.
Defined.

Lemma uncertainty_sampling_selects_queryable_witness :
  exists out,
    uncertainty_sampling_with fsub argsort_stable example_class_prob
                              example_test_ids example_queryable_ids 2 false
    = Ok out
    /\ NoDup out
    /\ Forall (fun i => exists x, nth_error example_test_ids i = Some x
                                  /\ In x example_queryable_ids) out.
Proof.
  apply (uncertainty_sampling_selects_queryable fsub argsort_stable).
  - exact argsort_stable_spec.
  - exact example_aligned.
  - exact example_rows.
  - exact example_ids.
Defined.

(** X2: the number of rows selected from a pool that has a row, with ids
    that are 64-bit integers.  With a batch that is not negative it is
    the smaller of [batch] and the number of queryable rows; a negative
    batch does not give an empty selection, it leaves out the last
    [-batch] rows of the ranking. *)
Theorem uncertainty_sampling_length
    (float_sub : pyfloat -> pyfloat -> pyfloat)
    (argsort : list pyfloat -> list nat)
    (class_prob : list (list pyfloat)) (test_ids queryable_ids : list Z)
    (batch : Z) :
  argsort_spec argsort -> aligned class_prob test_ids ->
  class_prob <> [] -> int64_ids test_ids queryable_ids ->
  exists out,
    uncertainty_sampling_with float_sub argsort class_prob test_ids
                              queryable_ids batch false = Ok out
    /\ length out
       = if (0 <=? batch)%Z
         then Nat.min (Z.to_nat batch)
                (length (pool_rows class_prob test_ids queryable_ids))
         else length (pool_rows class_prob test_ids queryable_ids)
              - Z.to_nat (- batch).
Proof.
  intros Hsort Hal Hrow _. eexists.
  split; [now apply uncertainty_sampling_quiet|].
  rewrite (Permutation_length
             (ranking_pool float_sub argsort class_prob test_ids
                           queryable_ids Hsort)).
  unfold slice_to. destruct (0 <=? batch)%Z; rewrite length_firstn; lia.
Qed.

Lemma uncertainty_sampling_length_witness :
  exists out,
    uncertainty_sampling_with fsub argsort_stable example_class_prob
                              example_test_ids example_queryable_ids (-1)
                              false = Ok out
    /\ length out
       = length (pool_rows example_class_prob example_test_ids
                           example_queryable_ids)
         - Z.to_nat (- (-1)).
Proof.
  apply (uncertainty_sampling_length fsub argsort_stable example_class_prob
           example_test_ids example_queryable_ids (-1)).
  - exact argsort_stable_spec.
  - exact example_aligned.
  - exact example_rows.
  - exact example_ids.
Defined.

Lemma StronglySorted_app_cross {A : Type} (R : A -> A -> Prop)
    (l1 l2 : list A) (x y : A) :
  StronglySorted R (l1 ++ l2) -> In x l1 -> In y l2 -> R x y.
Proof.
  induction l1 as [|a l1 IH]; simpl; [contradiction|].
  intros Hs Hx Hy. inversion Hs as [|? ? Hs' Ha]; subst.
  destruct Hx as [->|Hx]; [|now apply IH].
  rewrite Forall_forall in Ha. apply Ha. apply in_or_app. now right.
Qed.

(** X3: the most uncertain rows are the ones selected.  From a pool that
    has a row, with ids that are 64-bit integers, a selected row is never
    farther from the decision boundary, in the distance the code
    computes, than a queryable row that was left out.  This holds however
    the subtraction rounds. *)
Theorem uncertainty_sampling_most_uncertain
    (float_sub : pyfloat -> pyfloat -> pyfloat)
    (argsort : list pyfloat -> list nat)
    (class_prob : list (list pyfloat)) (test_ids queryable_ids : list Z)
    (batch : Z) :
  argsort_spec argsort -> aligned class_prob test_ids ->
  class_prob <> [] -> int64_ids test_ids queryable_ids ->
  exists out,
    uncertainty_sampling_with float_sub argsort class_prob test_ids
                              queryable_ids batch false = Ok out
    /\ forall i j,
         In i out ->
         In j (pool_rows class_prob test_ids queryable_ids) ->
         ~ In j out ->
         sort_leb (distance float_sub class_prob i)
                  (distance float_sub class_prob j) = true.
Proof.
  intros Hsort Hal Hrow _. eexists.
  split; [now apply uncertainty_sampling_quiet|].
  intros i j Hi Hj Hout.
  pose proof (ranking_pool float_sub argsort class_prob test_ids
                queryable_ids Hsort) as Hperm.
  apply (Permutation_in _ Hperm) in Hj.
  assert (Hsorted : ascending (distances float_sub class_prob)
                      (ranking float_sub argsort class_prob test_ids
                               queryable_ids)).
  { apply StronglySorted_filter.
    apply (Hsort (distances float_sub class_prob)). }
  unfold slice_to in Hi, Hout.
  set (r := ranking float_sub argsort class_prob test_ids queryable_ids)
    in *.
  destruct (0 <=? batch)%Z;
    match type of Hi with In _ (firstn ?n _) =>
      rewrite <- (firstn_skipn n r) in Hj, Hsorted;
      apply in_app_or in Hj; destruct Hj as [Hj|Hj]; [contradiction|];
      exact (StronglySorted_app_cross _ _ _ _ _ Hsorted Hi Hj)
    end.
Qed.

Lemma uncertainty_sampling_most_uncertain_witness :
  exists out,
    uncertainty_sampling_with float_round_half argsort_stable
                              close_class_prob close_test_ids close_test_ids
                              1 false = Ok out
    /\ forall i j,
         In i out ->
         In j (pool_rows close_class_prob close_test_ids close_test_ids) ->
         ~ In j out ->
         sort_leb (distance float_round_half close_class_prob i)
                  (distance float_round_half close_class_prob j) = true.
Proof.
  apply (uncertainty_sampling_most_uncertain float_round_half
           argsort_stable).
  - exact argsort_stable_spec.
  - split; [reflexivity|]. repeat constructor.
  - discriminate.
  - split; repeat constructor; unfold int64; lia.
Defined.

(** X4: from a pool that has a row, with ids that are 64-bit integers, a
    batch at least as large as the number of queryable rows selects every
    queryable row, each once. *)
Theorem uncertainty_sampling_whole_pool
    (float_sub : pyfloat -> pyfloat -> pyfloat)
    (argsort : list pyfloat -> list nat)
    (class_prob : list (list pyfloat)) (test_ids queryable_ids : list Z)
    (batch : Z) :
  argsort_spec argsort -> aligned class_prob test_ids ->
  class_prob <> [] -> int64_ids test_ids queryable_ids ->
  (Z.of_nat (length (pool_rows class_prob test_ids queryable_ids))
   <= batch)%Z ->
  exists out,
    uncertainty_sampling_with float_sub argsort class_prob test_ids
                              queryable_ids batch false = Ok out
    /\ Permutation (pool_rows class_prob test_ids queryable_ids) out.
Proof.
  intros Hsort Hal Hrow _ Hbatch. eexists.
  split; [now apply uncertainty_sampling_quiet|].
  pose proof (ranking_pool float_sub argsort class_prob test_ids
                queryable_ids Hsort) as Hperm.
  unfold slice_to.
  destruct (0 <=? batch)%Z eqn:E; [|apply Z.leb_gt in E; lia].
  rewrite firstn_all2; [exact Hperm|].
  rewrite <- (Permutation_length Hperm). lia.
Qed.

Lemma uncertainty_sampling_whole_pool_witness :
  exists out,
    uncertainty_sampling_with fsub argsort_stable example_class_prob
                              example_test_ids example_queryable_ids 7 false
    = Ok out
    /\ Permutation (pool_rows example_class_prob example_test_ids
                              example_queryable_ids) out.
Proof.
  apply (uncertainty_sampling_whole_pool fsub argsort_stable).
  - exact argsort_stable_spec.
  - exact example_aligned.
  - exact example_rows.
  - exact example_ids.
  - vm_compute. discriminate.
Defined.

(** X5: when at least one row can be queried, the call with [screen] set
    returns what the call without it returns: the diagnostics do not
    change the selection. *)
Theorem uncertainty_sampling_screen_same
    (argsort : list pyfloat -> list nat)
    (class_prob : list (list pyfloat)) (test_ids queryable_ids : list Z)
    (batch : Z) (i : nat) (x : Z) :
  argsort_spec argsort -> aligned class_prob test_ids ->
  nth_error test_ids i = Some x -> In x queryable_ids ->
  uncertainty_sampling argsort class_prob test_ids queryable_ids batch true
  = uncertainty_sampling argsort class_prob test_ids queryable_ids batch
                         false.
Proof.
  intros Hsort Hal Hi Hx. unfold uncertainty_sampling.
  rewrite !uncertainty_sampling_with_eq by (auto using Hsort).
  assert (Hin : In i (ranking fsub argsort class_prob test_ids
                              queryable_ids)).
  { apply (Permutation_in _ (ranking_pool fsub argsort class_prob test_ids
                               queryable_ids Hsort)).
    apply filter_In. split.
    - apply in_seq. destruct Hal as [Hlen _].
      assert (i < length test_ids)
        by (apply nth_error_Some; congruence).
      lia.
    - unfold queryable_row. rewrite (nth_error_nth _ _ 0%Z Hi).
      now apply isin_In. }
  destruct class_prob; [reflexivity|].
  destruct (ranking _ _ _ _ _); [contradiction|reflexivity].
Qed.

Lemma uncertainty_sampling_screen_same_witness :
  uncertainty_sampling argsort_stable example_class_prob example_test_ids
                       example_queryable_ids 2 true
  = uncertainty_sampling argsort_stable example_class_prob example_test_ids
                         example_queryable_ids 2 false.
Proof.
  apply (uncertainty_sampling_screen_same argsort_stable example_class_prob
           example_test_ids example_queryable_ids 2 0 10%Z).
  - exact argsort_stable_spec.
  - exact example_aligned.
  - reflexivity.
  - now left.
Defined.

(** ** uncertainty_sampling: inputs of the wrong shape *)

Lemma mapM_index_error {A B : Type} (f : A -> result B) (l : list A) :
  (forall a e, f a = Raise e -> e = IndexError) ->
  Exists (fun a => exists e, f a = Raise e) l ->
  mapM f l = Raise IndexError.
Proof.
  intros Honly. induction 1 as [a l [e He]|a l _ IH]; simpl.
  - rewrite He. cbn [bind]. now rewrite (Honly a e He).
  - destruct (f a) as [b|e] eqn:E; cbn [bind].
    + now rewrite IH.
    + now rewrite (Honly a e E).
Qed.

Lemma getitem_raise {A : Type} (l : list A) (i : nat) (e : exn) :
  getitem l i = Raise e -> e = IndexError.
Proof.
  unfold getitem. destruct (nth_error l i); [discriminate|congruence].
Qed.

Lemma getitem_out_of_range {A : Type} (l : list A) (i : nat) :
  length l <= i -> getitem l i = Raise IndexError.
Proof.
  intros H. unfold getitem. apply nth_error_None in H. now rewrite H.
Qed.

(** X6: a probability matrix with a row of fewer than two classes makes
    the call raise [IndexError] at [class_prob[:, 1]], whatever the other
    arguments are. *)
Theorem uncertainty_sampling_one_class
    (argsort : list pyfloat -> list nat)
    (class_prob : list (list pyfloat)) (test_ids queryable_ids : list Z)
    (batch : Z) (screen : bool) :
  Exists (fun row => length row < 2) class_prob ->
  uncertainty_sampling argsort class_prob test_ids queryable_ids batch screen
  = Raise IndexError.
Proof.
  intros Hrow. unfold uncertainty_sampling, uncertainty_sampling_with, column.
  rewrite mapM_index_error; [reflexivity| |].
  - intros row e. apply getitem_raise.
  - eapply Exists_impl; [|exact Hrow]. intros row Hlen.
    exists IndexError. apply getitem_out_of_range.
    cbv beta in Hlen. lia.
Qed.

Lemma uncertainty_sampling_one_class_witness :
  uncertainty_sampling argsort_stable [[Finite (1 # 2)]] [10%Z] [10%Z] 1 false
  = Raise IndexError.
Proof.
  apply (uncertainty_sampling_one_class argsort_stable).
  constructor. simpl. lia.
Defined.

(** X7: with fewer ids than rows the call raises [IndexError] at
    [test_ids[order]]: the ordering holds every row, also the rows
    without an id. *)
Theorem uncertainty_sampling_too_few_ids
    (argsort : list pyfloat -> list nat)
    (class_prob : list (list pyfloat)) (test_ids queryable_ids : list Z)
    (batch : Z) (screen : bool) :
  argsort_spec argsort ->
  Forall (fun row => 2 <= length row) class_prob ->
  length test_ids < length class_prob ->
  uncertainty_sampling argsort class_prob test_ids queryable_ids batch screen
  = Raise IndexError.
Proof.
  intros Hsort Hrows Hlen.
  unfold uncertainty_sampling, uncertainty_sampling_with.
  rewrite (column_ok _ Hrows). cbn [bind].
  fold (distances fsub class_prob).
  unfold take. rewrite mapM_index_error; [reflexivity| |].
  - intros i e. apply getitem_raise.
  - apply Exists_exists. exists (length test_ids). split.
    + destruct (Hsort (distances fsub class_prob)) as [Hperm _].
      apply (Permutation_in _ Hperm). apply in_seq.
      rewrite distances_length. lia.
    + exists IndexError. now apply getitem_out_of_range.
Qed.

Lemma uncertainty_sampling_too_few_ids_witness :
  uncertainty_sampling argsort_stable example_class_prob [10; 20]%Z
                       example_queryable_ids 2 false
  = Raise IndexError.
Proof.
  apply (uncertainty_sampling_too_few_ids argsort_stable).
  - exact argsort_stable_spec.
  - repeat constructor.
  - simpl. lia.
Defined.

Lemma isin_same_members (values values' : list Z) :
  (forall x, In x values <-> In x values') ->
  forall x, isin x values = isin x values'.
Proof.
  intros H x. destruct (isin x values) eqn:E, (isin x values') eqn:E';
    try reflexivity.
  - apply isin_In, H, isin_In in E. congruence.
  - apply isin_In, H, isin_In in E'. congruence.
Qed.

(** X8: [queryable_ids] is read as a set.  Two lists with the same
    members, in any order and with any repetitions, give the same
    outcome. *)
Theorem uncertainty_sampling_queryable_as_set
    (argsort : list pyfloat -> list nat)
    (class_prob : list (list pyfloat))
    (test_ids queryable_ids queryable_ids' : list Z)
    (batch : Z) (screen : bool) :
  (forall x, In x queryable_ids <-> In x queryable_ids') ->
  uncertainty_sampling argsort class_prob test_ids queryable_ids batch screen
  = uncertainty_sampling argsort class_prob test_ids queryable_ids' batch
                         screen.
Proof.
  intros Hsame. unfold uncertainty_sampling, uncertainty_sampling_with.
  destruct (column class_prob 1) as [col|e]; [|reflexivity]. cbn [bind].
  destruct (take test_ids _) as [ids|e]; [|reflexivity]. cbn [bind].
  now rewrite (map_ext _ _ (isin_same_members _ _ Hsame)).
Qed.

Lemma uncertainty_sampling_queryable_as_set_witness :
  uncertainty_sampling argsort_stable example_class_prob example_test_ids
                       [10; 30]%Z 2 false
  = uncertainty_sampling argsort_stable example_class_prob example_test_ids
                         [30; 10; 30]%Z 2 false.
Proof.
  apply (uncertainty_sampling_queryable_as_set argsort_stable).
  intros x. simpl. tauto.
Defined.

(** ** fit_bazin and fit_bazin_all: edge and error behaviour *)

Lemma band_rows_none (lc : t) (b : string) :
  Forall (fun o => band o <> b) (photometry lc) -> band_rows lc b = 0.
Proof.
  unfold band_rows, filter_flag, count_true.
  induction 1 as [|o l Ho _ IH]; simpl; [reflexivity|].
  apply String.eqb_neq in Ho. now rewrite Ho.
Qed.

(** X9: on an object whose photometry table has rows, [fit_bazin] called
    for a band that none of the rows has raises [IndexError] at
    [time[0]]; the fitter is not reached. *)
Theorem fit_bazin_absent_band
    (fit_scipy : list pyfloat -> list pyfloat -> result (list pyfloat))
    (lc : t) (b : string) :
  photometry lc <> [] ->
  Forall (fun o => band o <> b) (photometry lc) ->
  fit_bazin fit_scipy lc b = Raise IndexError.
Proof.
  intros _ Hnone. rewrite fit_bazin_eq.
  pose proof (band_times_length lc b) as Hlen.
  rewrite (band_rows_none lc b Hnone) in Hlen.
  now destruct (band_times lc b).
Qed.

Lemma fit_bazin_absent_band_witness :
  fit_bazin fit_fixed example_lc "z" = Raise IndexError.
Proof.
  apply (fit_bazin_absent_band fit_fixed example_lc "z").
  - discriminate.
  - repeat constructor; discriminate.
Defined.

Lemma no_nan_counted (best_fit : list pyfloat) :
  existsb is_nan best_fit = false ->
  Forall (fun f => f <> Fit NaN) (map Fit best_fit).
Proof.
  induction best_fit as [|x l IH]; simpl; [constructor|].
  intros H. apply orb_false_iff in H. destruct H as [Hx Hl].
  constructor; [|now apply IH].
  intros E. injection E as ->. discriminate.
Qed.

Lemma repeat_none_no_nan (n : nat) :
  Forall (fun f => f <> Fit NaN) (repeat NoneStr n).
Proof.
  induction n; simpl; constructor; [discriminate|assumption].
Qed.

Lemma fit_bands_no_nan
    (fit_scipy : list pyfloat -> list pyfloat -> result (list pyfloat))
    (lc : t) (bands : list string) :
  forall features features',
    Forall (fun f => f <> Fit NaN) features ->
    fit_bands fit_scipy lc features bands = Ok features' ->
    Forall (fun f => f <> Fit NaN) features'.
Proof.
  induction bands as [|b bands IH]; intros features features' Hf Hrun;
    simpl in Hrun.
  - now injection Hrun as <-.
  - destruct (fit_band fit_scipy lc features b) as [fs|e] eqn:E;
      [|discriminate].
    cbn [bind] in Hrun. apply (IH fs features'); [|exact Hrun].
    unfold fit_band in E.
    destruct (4 <? _).
    + destruct (fit_bazin fit_scipy lc b) as [best|e]; [|discriminate].
      cbn [bind] in E. rewrite count_nan_zero in E.
      destruct (existsb is_nan best) eqn:En; simpl in E;
        injection E as <-; apply Forall_app; split; auto.
      * apply (repeat_none_no_nan 5).
      * now apply no_nan_counted.
    + injection E as <-. apply Forall_app. split; [exact Hf|].
      apply (repeat_none_no_nan 5).
Qed.

(** X10: no NaN is ever stored.  Whatever the fitter returns, each entry
    of the list [fit_bazin_all] stores is ['None'] or a value that is not
    NaN. *)
Theorem bazin_features_hold_no_nan
    (fit_scipy : list pyfloat -> list pyfloat -> result (list pyfloat))
    (lc lc' : t) :
  fit_bazin_all fit_scipy lc = Ok lc' ->
  Forall (fun f => f <> Fit NaN) (bazin_features lc').
Proof.
  unfold fit_bazin_all. intros H.
  destruct (fit_bands fit_scipy lc [] (filters lc)) as [fs|e] eqn:E;
    [|discriminate].
  injection H as <-. simpl.
  apply (fit_bands_no_nan fit_scipy lc (filters lc) [] fs); [constructor|].
  exact E.
Qed.

Lemma bazin_features_hold_no_nan_witness :
  Forall (fun f => f <> Fit NaN)
         (bazin_features
            (set_bazin_features example_lc (repeat NoneStr 20))).
Proof.
  apply (bazin_features_hold_no_nan fit_nan example_lc).
  reflexivity.
Defined.

Lemma fit_bands_same_table
    (fit_scipy : list pyfloat -> list pyfloat -> result (list pyfloat))
    (lc : t) (old : list feature) (bands : list string) :
  forall features,
    fit_bands fit_scipy (set_bazin_features lc old) features bands
    = fit_bands fit_scipy lc features bands.
Proof.
  induction bands as [|b bands IH]; intros features; simpl; [reflexivity|].
  change (fit_band fit_scipy (set_bazin_features lc old) features b)
    with (fit_band fit_scipy lc features b).
  destruct (fit_band fit_scipy lc features b); [apply IH|reflexivity].
Qed.

(** X11: [fit_bazin_all] rebuilds the feature list from the photometry: it
    changes no other attribute, and running it again on its own result
    gives the same object, so features are not appended twice. *)
Theorem fit_bazin_all_again
    (fit_scipy : list pyfloat -> list pyfloat -> result (list pyfloat))
    (lc lc' : t) :
  fit_bazin_all fit_scipy lc = Ok lc' ->
  lc' = set_bazin_features lc (bazin_features lc')
  /\ fit_bazin_all fit_scipy lc' = Ok lc'.
Proof.
  unfold fit_bazin_all. intros H.
  destruct (fit_bands fit_scipy lc [] (filters lc)) as [fs|e] eqn:E;
    [|discriminate].
  injection H as <-. split; [reflexivity|].
  change (filters (set_bazin_features lc fs)) with (filters lc).
  rewrite fit_bands_same_table, E. reflexivity.
Qed.

Lemma fit_bazin_all_again_witness :
  set_bazin_features example_lc (repeat NoneStr 20)
  = set_bazin_features example_lc
      (bazin_features (set_bazin_features example_lc (repeat NoneStr 20)))
  /\ fit_bazin_all fit_nan
       (set_bazin_features example_lc (repeat NoneStr 20))
     = Ok (set_bazin_features example_lc (repeat NoneStr 20)).
Proof.
  apply (fit_bazin_all_again fit_nan example_lc).
  reflexivity.
Defined.

Lemma fit_bands_first_raise
    (fit_scipy : list pyfloat -> list pyfloat -> result (list pyfloat))
    (lc : t) (before after : list string) (b : string) (e : exn) :
  Forall (fun b' => band_rows lc b' <= 4
                    \/ exists best_fit,
                         fit_bazin fit_scipy lc b' = Ok best_fit) before ->
  4 < band_rows lc b ->
  fit_bazin fit_scipy lc b = Raise e ->
  forall features,
    fit_bands fit_scipy lc features (before ++ b :: after) = Raise e.
Proof.
  intros Hbefore Hrows Hfit.
  induction Hbefore as [|b' before Hb' _ IH]; intros features; simpl.
  - unfold fit_band. fold (band_rows lc b).
    apply Nat.ltb_lt in Hrows. now rewrite Hrows, Hfit.
  - destruct Hb' as [Hshort|[best Hbest]].
    + rewrite (fit_band_short fit_scipy lc features b' Hshort).
      cbn [bind]. apply IH.
    + destruct (Nat.le_gt_cases (band_rows lc b') 4) as [Hle|Hgt].
      * rewrite (fit_band_short fit_scipy lc features b' Hle).
        cbn [bind]. apply IH.
      * rewrite (fit_band_long fit_scipy lc features b' best Hgt Hbest).
        cbn [bind]. apply IH.
Qed.

(** X12: an exception of the fitter is not caught and not turned into
    ['None'].  When the fitter raises on a declared band that has more
    than four rows, and the bands declared before it are short or are
    fitted without an exception, [fit_bazin_all] raises that same
    exception. *)
Theorem fit_bazin_all_fitter_raises
    (fit_scipy : list pyfloat -> list pyfloat -> result (list pyfloat))
    (lc : t) (before after : list string) (b : string) (e : exn) :
  filters lc = before ++ b :: after ->
  Forall (fun b' => band_rows lc b' <= 4
                    \/ exists best_fit,
                         fit_bazin fit_scipy lc b' = Ok best_fit) before ->
  4 < band_rows lc b ->
  fit_bazin fit_scipy lc b = Raise e ->
  fit_bazin_all fit_scipy lc = Raise e.
Proof.
  intros Hbands Hbefore Hrows Hfit. unfold fit_bazin_all.
  rewrite Hbands.
  now rewrite (fit_bands_first_raise fit_scipy lc before after b e).
Qed.

Lemma fit_bazin_all_fitter_raises_witness :
  fit_bazin_all fit_raising example_lc = Raise (ValueError "fit failed").
Proof.
  apply (fit_bazin_all_fitter_raises fit_raising example_lc []
           ["r"; "i"; "z"] "g" (ValueError "fit failed")).
  - reflexivity.
  - constructor.
  - vm_compute. lia.
  - reflexivity.
Defined.

Lemma Forall2_in_right {A B : Type} (R : A -> B -> Prop) (l : list A)
    (l' : list B) (y : B) :
  Forall2 R l l' -> In y l' -> exists x, In x l /\ R x y.
Proof.
  induction 1 as [|x y' l l' Hxy _ IH]; simpl; [contradiction|].
  intros [->|Hy].
  - exists x. split; [now left|exact Hxy].
  - destruct (IH Hy) as [x' [Hx' Hr]]. exists x'. split; [now right|exact Hr].
Qed.

Lemma Forall2_in_left {A B : Type} (R : A -> B -> Prop) (l : list A)
    (l' : list B) (x : A) :
  Forall2 R l l' -> In x l -> exists y, In y l' /\ R x y.
Proof.
  induction 1 as [|x' y l l' Hxy _ IH]; simpl; [contradiction|].
  intros [->|Hx].
  - exists y. split; [now left|exact Hxy].
  - destruct (IH Hx) as [y' [Hy' Hr]]. exists y'. split; [now right|exact Hr].
Qed.

Lemma none_not_fitted (best_fit : list pyfloat) :
  ~ In NoneStr (map Fit best_fit).
Proof.
  intros H. apply in_map_iff in H. destruct H as [x [Hx _]]. discriminate.
Qed.

(** X13: when ['None'] appears.  The stored list holds a ['None'] exactly
    when some declared band has at most four rows or a fit with a NaN;
    the driver keeps only objects whose list holds none. *)
Theorem bazin_features_none_iff
    (fit_scipy : list pyfloat -> list pyfloat -> result (list pyfloat))
    (lc : t) :
  fitter_contract fit_scipy ->
  exists lc',
    fit_bazin_all fit_scipy lc = Ok lc'
    /\ (In NoneStr (bazin_features lc') <->
        exists b, In b (filters lc)
          /\ (band_rows lc b <= 4
              \/ exists best_fit,
                   fit_bazin fit_scipy lc b = Ok best_fit
                   /\ existsb is_nan best_fit = true)).
Proof.
  intros Hfit.
  destruct (fit_bands_blocks fit_scipy lc (filters lc) Hfit [])
    as [blocks [Hrun Hall]].
  exists (set_bazin_features lc (concat blocks)).
  unfold fit_bazin_all. rewrite Hrun. split; [reflexivity|].
  change (bazin_features (set_bazin_features lc (concat blocks)))
    with (concat blocks).
  split.
  - intros Hnone. apply in_concat in Hnone.
    destruct Hnone as [block [Hblock Hin]].
    destruct (Forall2_in_right _ _ _ _ Hall Hblock) as [b [Hb [Hrunb _]]].
    exists b. split; [exact Hb|].
    destruct (Nat.le_gt_cases (band_rows lc b) 4) as [Hle|Hgt];
      [now left|right].
    destruct (fit_bazin_ok fit_scipy lc b Hfit Hgt) as [best [Hbest _]].
    exists best. split; [exact Hbest|].
    rewrite (fit_band_long fit_scipy lc [] b best Hgt Hbest) in Hrunb.
    injection Hrunb as <-.
    destruct (existsb is_nan best); [reflexivity|].
    now apply none_not_fitted in Hin.
  - intros [b [Hb Hcase]].
    destruct (Forall2_in_left _ _ _ _ Hall Hb) as [block [Hblock [Hrunb _]]].
    apply in_concat. exists block. split; [exact Hblock|].
    destruct Hcase as [Hle|[best [Hbest Hnan]]].
    + rewrite (fit_band_short fit_scipy lc [] b Hle) in Hrunb.
      injection Hrunb as <-. now left.
    + destruct (Nat.le_gt_cases (band_rows lc b) 4) as [Hle|Hgt].
      * rewrite (fit_band_short fit_scipy lc [] b Hle) in Hrunb.
        injection Hrunb as <-. now left.
      * rewrite (fit_band_long fit_scipy lc [] b best Hgt Hbest) in Hrunb.
        rewrite Hnan in Hrunb. injection Hrunb as <-. now left.
Qed.

Lemma bazin_features_none_iff_witness :
  exists lc',
    fit_bazin_all fit_fixed example_lc = Ok lc'
    /\ (In NoneStr (bazin_features lc') <->
        exists b, In b (filters example_lc)
          /\ (band_rows example_lc b <= 4
              \/ exists best_fit,
                   fit_bazin fit_fixed example_lc b = Ok best_fit
                   /\ existsb is_nan best_fit = true)).
Proof.
  apply (bazin_features_none_iff fit_fixed example_lc).
  exact fit_fixed_contract.
Defined.

(** ** load_snpcc_lc: what a loaded object holds *)

(** Case analysis of a run of [read_line] or of the loader that returned. *)
Ltac crack H :=
  repeat match type of H with
  | bind ?c _ = Ok _ =>
      let E := fresh "E" in
      destruct c eqn:E; cbn [bind] in H; [|discriminate H]
  | (if ?c then _ else _) = Ok _ =>
      let E := fresh "E" in destruct c eqn:E
  | Raise _ = Ok _ => discriminate H
  end.

Ltac name_tags :=
  repeat match goal with
  | H : String.eqb _ _ = true |- _ => apply String.eqb_eq in H; subst
  end.

Section LoadedObject.

Variable py_int : string -> result Z.
Variable py_float : string -> result pyfloat.

(** One line leaves the filters and the data set name alone. *)
Lemma read_line_filters (st st' : loader) (line : list string) :
  read_line py_int py_float st line = Ok st' ->
  filters (self st') = filters (self st)
  /\ dataset_name (self st') = dataset_name (self st).
Proof.
  intros H. unfold read_line in H. crack H; injection H as <-; now split.
Qed.

(** One line appends to [photometry_raw] when it is an [OBS:] line. *)
Lemma read_line_photometry_raw (st st' : loader) (line : list string) :
  read_line py_int py_float st line = Ok st' ->
  photometry_raw st'
  = photometry_raw st
    ++ if first_word_is "OBS:" line then [tl line] else [].
Proof.
  intros H. unfold read_line in H.
  destruct line as [|w rest]; [discriminate H|].
  cbn [getitem nth_error bind first_word_is first_word] in H |- *.
  crack H; injection H as <-; name_tags; cbn [photometry_raw];
    try (now rewrite app_nil_r);
    try (rewrite E5; now rewrite app_nil_r).
  reflexivity.
Qed.

(** One line replaces [header] when it is a [VARLIST:] line. *)
Lemma read_line_header (st st' : loader) (line : list string) :
  read_line py_int py_float st line = Ok st' ->
  header st' = if first_word_is "VARLIST:" line then tl line else header st.
Proof.
  intros H. unfold read_line in H.
  destruct line as [|w rest]; [discriminate H|].
  cbn [getitem nth_error bind first_word_is first_word] in H |- *.
  crack H; injection H as <-; name_tags; cbn [header];
    try reflexivity; try (now rewrite E4).
Qed.

(** One line sets code and type together, and only a [SIM_NON1a:] line
    does. *)
Lemma read_line_code (st st' : loader) (line : list string) :
  read_line py_int py_float st line = Ok st' ->
  if first_word_is "SIM_NON1a:" line
  then code_and_type_agree (self st')
  else sncode (self st') = sncode (self st)
       /\ sntype (self st') = sntype (self st).
Proof.
  intros H. unfold read_line in H.
  destruct line as [|w rest]; [discriminate H|].
  cbn [getitem nth_error bind first_word_is first_word] in H |- *.
  crack H; injection H as <-; name_tags; cbn [first_word_is first_word self];
    try (now split); try (rewrite E3; now split).
  - left. split; [now apply str_in_In|reflexivity].
  - right. left. split; [now apply str_in_In|reflexivity].
  - right. right. now split.
Qed.

End LoadedObject.

Section LoadedFile.

Variable py_int : string -> result Z.
Variable py_float : string -> result pyfloat.

Lemma read_lines_filters (data : list (list string)) :
  forall st st',
    read_lines py_int py_float st data = Ok st' ->
    filters (self st') = filters (self st)
    /\ dataset_name (self st') = dataset_name (self st).
Proof.
  induction data as [|line data IH]; intros st st' H; simpl in H.
  - injection H as <-. now split.
  - crack H. destruct (read_line_filters _ _ _ _ _ E) as [Hf Hd].
    destruct (IH _ _ H) as [Hf' Hd']. split; congruence.
Qed.

Lemma read_lines_photometry_raw (data : list (list string)) :
  forall st st',
    read_lines py_int py_float st data = Ok st' ->
    photometry_raw st'
    = photometry_raw st ++ map (@tl string) (filter (first_word_is "OBS:") data).
Proof.
  induction data as [|line data IH]; intros st st' H; simpl in H.
  - injection H as <-. simpl. now rewrite app_nil_r.
  - crack H. rewrite (IH _ _ H), (read_line_photometry_raw _ _ _ _ _ E).
    simpl. destruct (first_word_is "OBS:" line); simpl;
      now rewrite <- app_assoc.
Qed.

Lemma read_lines_header (data : list (list string)) :
  forall st st',
    read_lines py_int py_float st data = Ok st' ->
    header st' = header st
    \/ exists line,
         In line data /\ first_word_is "VARLIST:" line = true
         /\ header st' = tl line.
Proof.
  induction data as [|line data IH]; intros st st' H; simpl in H.
  - injection H as <-. now left.
  - crack H. pose proof (read_line_header _ _ _ _ _ E) as Hline.
    destruct (IH _ _ H) as [Hsame|[line' [Hin [Htag Hhd]]]].
    + destruct (first_word_is "VARLIST:" line) eqn:Ev.
      * right. exists line. repeat split; [now left|exact Ev|congruence].
      * left. congruence.
    + right. exists line'. repeat split; [now right|exact Htag|exact Hhd].
Qed.

Lemma read_lines_code (data : list (list string)) :
  forall st st',
    read_lines py_int py_float st data = Ok st' ->
    (existsb (first_word_is "SIM_NON1a:") data = true
     \/ code_and_type_agree (self st) ->
     code_and_type_agree (self st'))
    /\ (existsb (first_word_is "SIM_NON1a:") data = false ->
        sncode (self st') = sncode (self st)
        /\ sntype (self st') = sntype (self st)).
Proof.
  induction data as [|line data IH]; intros st st' H; simpl in H.
  - injection H as <-. split; [|now split].
    intros [Hex|Hagree]; [discriminate|exact Hagree].
  - crack H. pose proof (read_line_code _ _ _ _ _ E) as Hline.
    destruct (IH _ _ H) as [Hset Hkeep]. simpl.
    destruct (first_word_is "SIM_NON1a:" line); simpl.
    + split; [|discriminate]. intros _. apply Hset. now right.
    + destruct Hline as [Hc Ht]. split.
      * intros [Hex|Hagree]; apply Hset; [now left|right].
        unfold code_and_type_agree in *. now rewrite Hc, Ht.
      * intros Hex. destruct (Hkeep Hex). split; congruence.
Qed.

Lemma mapM_length {A B : Type} (f : A -> result B) (l : list A)
    (l' : list B) :
  mapM f l = Ok l' -> length l' = length l.
Proof.
  revert l'. induction l as [|a l IH]; intros l' H; simpl in H.
  - now injection H as <-.
  - crack H. injection H as <-. simpl. f_equal. now apply IH.
Qed.

Lemma raw_column_length (rows : list (list string)) (j : nat)
    (c : list string) :
  raw_column rows j = Ok c -> length c = length rows /\ 0 < length rows.
Proof.
  unfold raw_column. destruct rows as [|r rows]; [discriminate|].
  intros H. crack H. apply mapM_length in H. split; [exact H|simpl; lia].
Qed.

Lemma str_index_In (l : list string) (x : string) (j : nat) :
  str_index l x = Ok j -> In x l.
Proof.
  revert j. induction l as [|y l IH]; intros j E; simpl in E;
    [discriminate|].
  destruct (String.eqb y x) eqn:Ey.
  - left. now apply String.eqb_eq.
  - right. crack E. eapply IH. reflexivity.
Qed.

Lemma float_column_length (rows : list (list string)) (hd : list string)
    (name : string) (c : list pyfloat) :
  float_column py_float rows hd name = Ok c ->
  length c = length rows /\ 0 < length rows /\ In name hd.
Proof.
  unfold float_column. intros H. crack H.
  apply mapM_length in H. apply raw_column_length in E0.
  destruct E0 as [Hlen Hpos]. split; [congruence|]. split; [exact Hpos|].
  eapply str_index_In. eassumption.
Qed.

Lemma zip5_length (a : list pyfloat) (b : list string)
    (c d e : list pyfloat) (n : nat) :
  length a = n -> length b = n -> length c = n -> length d = n ->
  length e = n -> length (zip5 a b c d e) = n.
Proof.
  revert a b c d e.
  induction n as [|n IH]; intros [|x a] [|y b] [|z c] [|u d] [|v e];
    simpl; intros; try discriminate; try reflexivity.
  f_equal. apply IH; congruence.
Qed.

Lemma filter_filter {A : Type} (f g : A -> bool) (l : list A) :
  filter f (filter g l) = filter (fun x => g x && f x) l.
Proof.
  induction l as [|a l IH]; simpl; [reflexivity|].
  destruct (g a); simpl; [|exact IH].
  destruct (f a); now rewrite IH.
Qed.

(** What a load that returned went through. *)
Lemma load_snpcc_lc_ok (lc0 lc : t) (data_all : list (list string)) :
  load_snpcc_lc py_int py_float lc0 data_all = Ok lc ->
  exists st c_mjd c_band c_flux c_err c_snr,
    read_lines py_int py_float
      {| self := set_filters (set_dataset_name lc0 "SNPCC")
                             ["g"; "r"; "i"; "z"];
         photometry_raw := []; header := [] |}
      (filter (fun line => 1 <? length line) data_all) = Ok st
    /\ float_column py_float (photometry_raw st) (header st) "MJD"
       = Ok c_mjd
    /\ In "FLT" (header st)
    /\ length c_band = length (photometry_raw st)
    /\ float_column py_float (photometry_raw st) (header st) "FLUXCAL"
       = Ok c_flux
    /\ float_column py_float (photometry_raw st) (header st) "FLUXCALERR"
       = Ok c_err
    /\ float_column py_float (photometry_raw st) (header st) "SNR"
       = Ok c_snr
    /\ lc = set_photometry (self st) (zip5 c_mjd c_band c_flux c_err c_snr).
Proof.
  unfold load_snpcc_lc. intros H.
  destruct data_all as [|line0 lines] eqn:Edata; [discriminate H|].
  rewrite <- Edata in *. crack H. injection H as <-.
  do 6 eexists.
  repeat split; try eassumption.
  - eapply str_index_In. eassumption.
  - eapply raw_column_length. eassumption.
Qed.

End LoadedFile.

Lemma existsb_filter {A : Type} (f g : A -> bool) (l : list A) :
  existsb f (filter g l) = existsb (fun x => g x && f x) l.
Proof.
  induction l as [|a l IH]; simpl; [reflexivity|].
  destruct (g a); simpl; now rewrite IH.
Qed.

(** X14: an object that was loaded has the data set name SNPCC and the
    four filters g, r, i, z, whatever it held before and whatever the file
    holds; its feature list therefore has twenty entries, the number of
    parameter columns the driver writes in its header. *)
Theorem loaded_object_has_twenty_features
    (py_int : string -> result Z) (py_float : string -> result pyfloat)
    (fit_scipy : list pyfloat -> list pyfloat -> result (list pyfloat))
    (lc0 lc : t) (data_all : list (list string)) :
  fitter_contract fit_scipy ->
  load_snpcc_lc py_int py_float lc0 data_all = Ok lc ->
  dataset_name lc = "SNPCC"
  /\ filters lc = ["g"; "r"; "i"; "z"]
  /\ exists lc',
       fit_bazin_all fit_scipy lc = Ok lc'
       /\ length (bazin_features lc') = 20.
Proof.
  intros Hfit Hload.
  destruct (load_snpcc_lc_ok _ _ _ _ _ Hload)
    as [st [c1 [c2 [c3 [c4 [c5 [Hrun [_ [_ [_ [_ [_ [_ ->]]]]]]]]]]]]].
  destruct (read_lines_filters _ _ _ _ _ Hrun) as [Hf Hd].
  simpl in Hf, Hd.
  change (dataset_name (set_photometry (self st) (zip5 c1 c2 c3 c4 c5)))
    with (dataset_name (self st)).
  change (filters (set_photometry (self st) (zip5 c1 c2 c3 c4 c5)))
    with (filters (self st)).
  split; [exact Hd|]. split; [exact Hf|].
  set (lc := set_photometry (self st) (zip5 c1 c2 c3 c4 c5)).
  destruct (fit_bands_blocks fit_scipy lc (filters lc) Hfit [])
    as [blocks [Hblocks Hall]].
  exists (set_bazin_features lc (concat blocks)).
  unfold fit_bazin_all. rewrite Hblocks. split; [reflexivity|].
  change (bazin_features (set_bazin_features lc (concat blocks)))
    with (concat blocks).
  rewrite (concat_blocks_length 5 blocks (blocks_uniform _ _ _ _ Hall)).
  rewrite <- (Forall2_length Hall).
  change (filters lc) with (filters (self st)). now rewrite Hf.
Qed.

Lemma loaded_object_has_twenty_features_witness :
  match load_snpcc_lc int_any float_any init example_file with
  | Ok lc =>
      dataset_name lc = "SNPCC"
      /\ filters lc = ["g"; "r"; "i"; "z"]
      /\ exists lc',
           fit_bazin_all fit_fixed lc = Ok lc'
           /\ length (bazin_features lc') = 20
  | Raise _ => False
  end.
Proof.
  destruct (load_snpcc_lc int_any float_any init example_file) as [lc|e]
    eqn:E.
  - exact (loaded_object_has_twenty_features int_any float_any fit_fixed
             init lc example_file fit_fixed_contract E).
  - vm_compute in E. discriminate E.
Defined.

(** X15: an object that was loaded has one photometry row for each [OBS:]
    line of the file, and at least one: a file without an [OBS:] line does
    not load. *)
Theorem loaded_photometry_rows
    (py_int : string -> result Z) (py_float : string -> result pyfloat)
    (lc0 lc : t) (data_all : list (list string)) :
  load_snpcc_lc py_int py_float lc0 data_all = Ok lc ->
  length (photometry lc) = length (filter (has_tag "OBS:") data_all)
  /\ 0 < length (photometry lc).
Proof.
  intros Hload.
  destruct (load_snpcc_lc_ok _ _ _ _ _ Hload)
    as [st [c1 [c2 [c3 [c4 [c5 [Hrun [H1 [_ [H2 [H3 [H4 [H5 ->]]]]]]]]]]]]].
  apply float_column_length in H1, H3, H4, H5.
  destruct H1 as [L1 [Hpos _]], H3 as [L3 _], H4 as [L4 _], H5 as [L5 _].
  change (photometry (set_photometry (self st) (zip5 c1 c2 c3 c4 c5)))
    with (zip5 c1 c2 c3 c4 c5).
  rewrite (zip5_length c1 c2 c3 c4 c5 _ L1 H2 L3 L4 L5).
  split; [|exact Hpos].
  rewrite (read_lines_photometry_raw _ _ _ _ _ Hrun). simpl.
  now rewrite length_map, filter_filter.
Qed.

Lemma loaded_photometry_rows_witness :
  match load_snpcc_lc int_any float_any init example_file with
  | Ok lc =>
      length (photometry lc) = length (filter (has_tag "OBS:") example_file)
      /\ 0 < length (photometry lc)
  | Raise _ => False
  end.
Proof.
  destruct (load_snpcc_lc int_any float_any init example_file) as [lc|e]
    eqn:E.
  - exact (loaded_photometry_rows int_any float_any init lc example_file E).
  - vm_compute in E. discriminate E.
Defined.

(** X16: a file loads only if one of its [VARLIST:] lines names the five
    columns MJD, FLT, FLUXCAL, FLUXCALERR and SNR.  When every [VARLIST:]
    line lacks one of them, or there is no such line, loading raises. *)
Theorem load_needs_columns
    (py_int : string -> result Z) (py_float : string -> result pyfloat)
    (lc0 : t) (data_all : list (list string)) :
  (forall line,
     In line data_all -> has_tag "VARLIST:" line = true ->
     exists name, In name photometry_columns /\ ~ In name (tl line)) ->
  exists e, load_snpcc_lc py_int py_float lc0 data_all = Raise e.
Proof.
  intros Hmissing.
  destruct (load_snpcc_lc py_int py_float lc0 data_all) as [lc|e] eqn:Hload;
    [exfalso|now exists e].
  destruct (load_snpcc_lc_ok _ _ _ _ _ Hload)
    as [st [c1 [c2 [c3 [c4 [c5 [Hrun [H1 [Hflt [_ [H3 [H4 [H5 _]]]]]]]]]]]]].
  apply float_column_length in H1, H3, H4, H5.
  destruct H1 as [_ [_ Hmjd]], H3 as [_ [_ Hflux]], H4 as [_ [_ Herr]],
           H5 as [_ [_ Hsnr]].
  destruct (read_lines_header _ _ _ _ _ Hrun)
    as [Hempty|[line [Hin [Htag Hhd]]]].
  - simpl in Hempty. rewrite Hempty in Hmjd. contradiction.
  - apply filter_In in Hin. destruct Hin as [Hin Hlong].
    destruct (Hmissing line Hin) as [name [Hname Hnot]].
    + unfold has_tag. now rewrite Hlong, Htag.
    + rewrite <- Hhd in Hnot. unfold photometry_columns in Hname.
      simpl in Hname.
      destruct Hname as [<-|[<-|[<-|[<-|[<-|[]]]]]]; contradiction.
Qed.

Lemma load_needs_columns_witness :
  exists e,
    load_snpcc_lc int_any float_any init
      [ ["SNID:"; "7"]; ["VARLIST:"; "MJD"; "FLT"; "FLUXCAL"; "SNR"];
        ["OBS:"; "1.0"; "g"; "2.0"; "3"] ]
    = Raise e.
Proof.
  apply (load_needs_columns int_any float_any init).
  intros line Hin Htag. exists "FLUXCALERR". split.
  - unfold photometry_columns. simpl. tauto.
  - simpl in Hin. destruct Hin as [<-|[<-|[<-|[]]]].
    + discriminate Htag.
    + simpl. intros H.
      repeat (destruct H as [H|H]; [discriminate H|]). exact H.
    + discriminate Htag.
Defined.

(** X17: an object loaded from a file that has a [SIM_NON1a:] line has a
    type that agrees with its code: Ibc with a code of the Ibc list, II
    with a code of the II list, Ia with the code 0. *)
Theorem loaded_code_and_type_agree
    (py_int : string -> result Z) (py_float : string -> result pyfloat)
    (lc0 lc : t) (data_all : list (list string)) :
  load_snpcc_lc py_int py_float lc0 data_all = Ok lc ->
  existsb (has_tag "SIM_NON1a:") data_all = true ->
  code_and_type_agree lc.
Proof.
  intros Hload Hline.
  destruct (load_snpcc_lc_ok _ _ _ _ _ Hload)
    as [st [c1 [c2 [c3 [c4 [c5 [Hrun [_ [_ [_ [_ [_ [_ ->]]]]]]]]]]]]].
  destruct (read_lines_code _ _ _ _ _ Hrun) as [Hset _].
  change (code_and_type_agree (self st)).
  apply Hset. left. now rewrite existsb_filter.
Qed.

Lemma loaded_code_and_type_agree_witness :
  match load_snpcc_lc int_any float_any init example_file with
  | Ok lc => code_and_type_agree lc
  | Raise _ => False
  end.
Proof.
  destruct (load_snpcc_lc int_any float_any init example_file) as [lc|e]
    eqn:E.
  - exact (loaded_code_and_type_agree int_any float_any init lc example_file
             E eq_refl).
  - vm_compute in E. discriminate E.
Defined.

(** X18: a file without a [SIM_NON1a:] line loads without a type.  No
    error is raised; the object keeps the code and the type it had, which
    for a new object is the blank type. *)
Theorem loaded_without_code_line
    (py_int : string -> result Z) (py_float : string -> result pyfloat)
    (lc0 lc : t) (data_all : list (list string)) :
  load_snpcc_lc py_int py_float lc0 data_all = Ok lc ->
  existsb (has_tag "SIM_NON1a:") data_all = false ->
  sncode lc = sncode lc0 /\ sntype lc = sntype lc0.
Proof.
  intros Hload Hline.
  destruct (load_snpcc_lc_ok _ _ _ _ _ Hload)
    as [st [c1 [c2 [c3 [c4 [c5 [Hrun [_ [_ [_ [_ [_ [_ ->]]]]]]]]]]]]].
  destruct (read_lines_code _ _ _ _ _ Hrun) as [_ Hkeep].
  apply Hkeep. now rewrite existsb_filter.
Qed.

Lemma loaded_without_code_line_witness :
  match load_snpcc_lc int_any float_any init example_file_no_code with
  | Ok lc => sncode lc = "0" /\ sntype lc = " "
  | Raise _ => False
  end.
Proof.
  destruct (load_snpcc_lc int_any float_any init example_file_no_code)
    as [lc|e] eqn:E.
  - exact (loaded_without_code_line int_any float_any init lc
             example_file_no_code E eq_refl).
  - vm_compute in E. discriminate E.
Defined.

(** ** fit_bazin_samples *)

Lemma fit_bazin_all_features_length
    (fit_scipy : list pyfloat -> list pyfloat -> result (list pyfloat))
    (lc lc' : t) :
  fitter_contract fit_scipy ->
  fit_bazin_all fit_scipy lc = Ok lc' ->
  length (bazin_features lc') = 5 * length (filters lc).
Proof.
  intros Hfit Hrun.
  destruct (fit_bands_blocks fit_scipy lc (filters lc) Hfit [])
    as [blocks [Hblocks Hall]].
  unfold fit_bazin_all in Hrun. rewrite Hblocks in Hrun.
  injection Hrun as <-.
  change (bazin_features (set_bazin_features lc (concat blocks)))
    with (concat blocks).
  rewrite (concat_blocks_length 5 blocks (blocks_uniform _ _ _ _ Hall)).
  now rewrite (Forall2_length Hall).
Qed.

Lemma load_snpcc_lc_filters
    (py_int : string -> result Z) (py_float : string -> result pyfloat)
    (lc0 lc : t) (data_all : list (list string)) :
  load_snpcc_lc py_int py_float lc0 data_all = Ok lc ->
  filters lc = ["g"; "r"; "i"; "z"].
Proof.
  intros Hload.
  destruct (load_snpcc_lc_ok _ _ _ _ _ Hload)
    as [st [c1 [c2 [c3 [c4 [c5 [Hrun [_ [_ [_ [_ [_ [_ ->]]]]]]]]]]]]].
  destruct (read_lines_filters _ _ _ _ _ Hrun) as [Hf _]. exact Hf.
Qed.

Lemma existsb_is_none (features : list feature) :
  existsb is_none features = false -> ~ In NoneStr features.
Proof.
  intros H Hin. assert (existsb is_none features = true); [|congruence].
  apply existsb_exists. now exists NoneStr.
Qed.

Lemma row_of_no_none (lc : t) :
  ~ In NoneStr (bazin_features lc) -> ~ In (CellFeature NoneStr) (row_of lc).
Proof.
  intros Hno Hin. unfold row_of in Hin. apply in_app_or in Hin.
  destruct Hin as [Hin|Hin].
  - simpl in Hin. repeat (destruct Hin as [Hin|Hin]; [discriminate Hin|]).
    exact Hin.
  - apply in_map_iff in Hin. destruct Hin as [f [Hf Hin]].
    injection Hf as ->. contradiction.
Qed.

Section SamplesFacts.

Variable py_int : string -> result Z.
Variable py_float : string -> result pyfloat.
Variable fit_scipy : list pyfloat -> list pyfloat -> result (list pyfloat).

(** One line sets the sample when it is a [SNTYPE:] line, and only
    then. *)
Lemma read_line_sample (st st' : loader) (line : list string) :
  read_line py_int py_float st line = Ok st' ->
  if first_word_is "SNTYPE:" line
  then sample (self st') = "test" \/ sample (self st') = "train"
  else sample (self st') = sample (self st).
Proof.
  intros H. unfold read_line in H.
  destruct line as [|w rest]; [discriminate H|].
  cbn [getitem nth_error bind first_word_is first_word] in H |- *.
  crack H; injection H as <-; name_tags;
    cbn [first_word_is first_word self sample set_sample];
    try reflexivity; try (rewrite E1; reflexivity).
  cbn [String.eqb Ascii.eqb Bool.eqb]. destruct (String.eqb _ "-9"); tauto.
Qed.

Lemma read_lines_sample (data : list (list string)) :
  forall st st',
    read_lines py_int py_float st data = Ok st' ->
    existsb (first_word_is "SNTYPE:") data = true
    \/ sample (self st) = "test" \/ sample (self st) = "train" ->
    sample (self st') = "test" \/ sample (self st') = "train".
Proof.
  induction data as [|line data IH]; intros st st' H Hset; simpl in H.
  - injection H as <-. destruct Hset as [Hex|Hset]; [discriminate|exact Hset].
  - crack H. pose proof (read_line_sample _ _ _ E) as Hline.
    apply (IH _ _ H). simpl in Hset.
    destruct (first_word_is "SNTYPE:" line); simpl in Hset.
    + right. exact Hline.
    + rewrite Hline. exact Hset.
Qed.

(** The text of a known type, code or sample is one word. *)
Lemma one_word_types :
  Forall (fun s => length (words s) = 1)
         (["Ibc"; "II"; "Ia"; "0"; "test"; "train"] ++ snibc ++ snii).
Proof. repeat constructor. Qed.

Lemma feature_values (features : list feature) :
  list_sum (map cell_values (map CellFeature features)) = length features.
Proof.
  induction features as [|f features IH]; simpl; [reflexivity|].
  now rewrite IH.
Qed.

(** The row of an object that was loaded from a file with its sample and
    its code, and then fitted. *)
Lemma row_of_loaded (lc lc' : t) (data_all : list (list string)) :
  fitter_contract fit_scipy ->
  load_snpcc_lc py_int py_float init data_all = Ok lc ->
  fit_bazin_all fit_scipy lc = Ok lc' ->
  existsb (has_tag "SNTYPE:") data_all = true ->
  existsb (has_tag "SIM_NON1a:") data_all = true ->
  row_values (row_of lc') = length (words header_text).
Proof.
  intros Hfit Hload Hrun Hsample Hcode.
  pose proof (fit_bazin_all_features_length _ _ _ Hfit Hrun) as Hlen.
  rewrite (load_snpcc_lc_filters _ _ _ _ _ Hload) in Hlen.
  assert (Hsame : sntype lc' = sntype lc /\ sncode lc' = sncode lc
                  /\ sample lc' = sample lc).
  { unfold fit_bazin_all in Hrun. crack Hrun. injection Hrun as <-.
    repeat split. }
  destruct Hsame as [Htype [Hsncode Hsamp]].
  destruct (load_snpcc_lc_ok _ _ _ _ _ Hload)
    as [st [c1 [c2 [c3 [c4 [c5 [Hlines [_ [_ [_ [_ [_ [_ Hlc]]]]]]]]]]]]].
  assert (Hagree : code_and_type_agree lc).
  { rewrite Hlc. change (code_and_type_agree (self st)).
    apply (proj1 (read_lines_code _ _ _ _ _ Hlines)).
    left. now rewrite existsb_filter. }
  assert (Hst : sample lc = "test" \/ sample lc = "train").
  { rewrite Hlc.
    change (sample (self st) = "test" \/ sample (self st) = "train").
    apply (read_lines_sample _ _ _ Hlines).
    left. now rewrite existsb_filter. }
  pose proof one_word_types as Hwords. rewrite Forall_forall in Hwords.
  assert (W1 : length (words (sntype lc')) = 1).
  { rewrite Htype. apply Hwords. simpl.
    destruct Hagree as [[_ ->]|[[_ ->]|[_ ->]]]; tauto. }
  assert (W2 : length (words (sncode lc')) = 1).
  { rewrite Hsncode. apply Hwords.
    destruct Hagree as [[Hin _]|[[Hin _]|[-> _]]].
    - apply in_or_app. right. apply in_or_app. now left.
    - apply in_or_app. right. apply in_or_app. now right.
    - simpl. tauto. }
  assert (W3 : length (words (sample lc')) = 1).
  { rewrite Hsamp. apply Hwords. simpl. destruct Hst as [->| ->]; tauto. }
  unfold row_of, row_values. rewrite map_app, list_sum_app, feature_values.
  cbn [map cell_values list_sum]. rewrite W1, W2, W3, Hlen. reflexivity.
Qed.

Lemma fit_files_rows (lc_list : list (string * list (list string))) :
  fitter_contract fit_scipy ->
  Forall (fun file =>
            existsb (has_tag "SNTYPE:") (snd file) = true
            /\ existsb (has_tag "SIM_NON1a:") (snd file) = true) lc_list ->
  forall rows,
    Forall complete_row rows ->
    exists rows',
      fst (fit_files py_int py_float fit_scipy lc_list (length rows)
                     (Header header_text :: map Row rows))
      = Header header_text :: map Row rows'
      /\ Forall complete_row rows'
      /\ forall n,
           snd (fit_files py_int py_float fit_scipy lc_list (length rows)
                          (Header header_text :: map Row rows)) = Ok n ->
           n = length rows'.
Proof.
  intros Hfit Hfiles.
  induction Hfiles as [|[name data_all] lc_list [Hsample Hcode] _ IH];
    intros rows Hrows.
  - exists rows. simpl. repeat split; [exact Hrows|].
    intros n Hn. now injection Hn as <-.
  - simpl in Hsample, Hcode. simpl.
    destruct (load_snpcc_lc py_int py_float init data_all) as [lc|e]
      eqn:Hload; cbn [bind].
    + destruct (fit_bazin_all fit_scipy lc) as [lc'|e] eqn:Hrun.
      * destruct (existsb is_none (bazin_features lc')) eqn:Hnone;
          cbn [negb].
        -- apply (IH rows Hrows).
        -- destruct (IH (rows ++ [row_of lc'])) as [rows' Hrows'].
           ++ apply Forall_app. split; [exact Hrows|].
              constructor; [|constructor]. split.
              ** now apply (row_of_loaded lc lc' data_all).
              ** apply row_of_no_none. now apply existsb_is_none.
           ++ exists rows'.
              rewrite length_app, Nat.add_1_r, map_app in Hrows'.
              exact Hrows'.
      * exists rows. simpl. repeat split; [exact Hrows|discriminate].
    + exists rows. simpl. repeat split; [exact Hrows|discriminate].
Qed.

Lemma fit_files_app (l1 l2 : list (string * list (list string))) :
  forall count_surv features_file,
    fit_files py_int py_float fit_scipy (l1 ++ l2) count_surv features_file
    = match fit_files py_int py_float fit_scipy l1 count_surv features_file
      with
      | (features_file', Ok count_surv') =>
          fit_files py_int py_float fit_scipy l2 count_surv' features_file'
      | (features_file', Raise e) => (features_file', Raise e)
      end.
Proof.
  induction l1 as [|[name data_all] l1 IH]; intros count_surv features_file;
    simpl; [reflexivity|].
  destruct (bind _ _) as [lc|e]; [|reflexivity].
  destruct (negb _); apply IH.
Qed.

End SamplesFacts.

(** X19: when every light-curve file states its sample and its code (a
    [SNTYPE:] and a [SIM_NON1a:] line), the features file starts with the
    header, and every line written after it has as many values as the
    header has column names, none of them ['None'].  The number of these
    lines is the last value of [count_surv]. *)
Theorem features_file_rows_complete
    (py_int : string -> result Z) (py_float : string -> result pyfloat)
    (fit_scipy : list pyfloat -> list pyfloat -> result (list pyfloat))
    (file_list_all : list (string * list (list string))) :
  fitter_contract fit_scipy ->
  Forall states_sample_and_code file_list_all ->
  exists rows,
    fst (fit_bazin_samples py_int py_float fit_scipy file_list_all)
    = Header header_text :: map Row rows
    /\ Forall (fun cells =>
                 row_values cells = length (words header_text)
                 /\ ~ In (CellFeature NoneStr) cells) rows
    /\ forall n,
         snd (fit_bazin_samples py_int py_float fit_scipy file_list_all)
         = Ok n ->
         n = length rows.
Proof.
  intros Hfit Hfiles. unfold fit_bazin_samples.
  refine (fit_files_rows py_int py_float fit_scipy _ Hfit _ []
            (Forall_nil _)).
  apply Forall_forall. intros file Hin. apply filter_In in Hin.
  destruct Hin as [Hin Hname]. rewrite Forall_forall in Hfiles.
  now apply (Hfiles file Hin).
Qed.

Lemma features_file_rows_complete_witness :
  exists rows,
    fst (fit_bazin_samples int_any float_any fit_fixed typed_directory)
    = Header header_text :: map Row rows
    /\ Forall (fun cells =>
                 row_values cells = length (words header_text)
                 /\ ~ In (CellFeature NoneStr) cells) rows
    /\ forall n,
         snd (fit_bazin_samples int_any float_any fit_fixed typed_directory)
         = Ok n ->
         n = length rows.
Proof.
  apply (features_file_rows_complete int_any float_any fit_fixed
           typed_directory).
  - exact fit_fixed_contract.
  - unfold typed_directory.
    repeat (apply Forall_cons;
            [unfold states_sample_and_code; cbn [fst snd]; intros H;
             try discriminate H; split; reflexivity|]).
    apply Forall_nil.
Defined.

(** X20: a light-curve file that does not load stops the run.  The call
    raises, no file after it is read, and the features file holds what
    was written for the files before it. *)
Theorem bad_file_stops_run
    (py_int : string -> result Z) (py_float : string -> result pyfloat)
    (fit_scipy : list pyfloat -> list pyfloat -> result (list pyfloat))
    (before after : list (string * list (list string)))
    (name : string) (data_all : list (list string)) (e : exn) :
  str_contains "DES_SN" name = true ->
  load_snpcc_lc py_int py_float init data_all = Raise e ->
  (exists e',
     snd (fit_bazin_samples py_int py_float fit_scipy
            (before ++ (name, data_all) :: after)) = Raise e')
  /\ fst (fit_bazin_samples py_int py_float fit_scipy
            (before ++ (name, data_all) :: after))
     = fst (fit_bazin_samples py_int py_float fit_scipy before).
Proof.
  intros Hname Hload. unfold fit_bazin_samples.
  rewrite filter_app. cbn [filter fst]. rewrite Hname.
  rewrite fit_files_app.
  destruct (fit_files py_int py_float fit_scipy _ 0 [Header header_text])
    as [features_file [count_surv|e']].
  - cbn [fit_files]. rewrite Hload. cbn [bind fst snd].
    split; [now exists e|reflexivity].
  - cbn [fst snd]. split; [now exists e'|reflexivity].
Qed.

Lemma bad_file_stops_run_witness :
  (exists e',
     snd (fit_bazin_samples int_any float_any fit_fixed
            ([("DES_SN000021.DAT", full_file)]
             ++ ("DES_SN000018.DAT", [["SNID:"; "18"]; ["SIM_NON1a:"; "99"]])
                :: [("DES_SN000022.DAT", full_file)])) = Raise e')
  /\ fst (fit_bazin_samples int_any float_any fit_fixed
            ([("DES_SN000021.DAT", full_file)]
             ++ ("DES_SN000018.DAT", [["SNID:"; "18"]; ["SIM_NON1a:"; "99"]])
                :: [("DES_SN000022.DAT", full_file)]))
     = fst (fit_bazin_samples int_any float_any fit_fixed
              [("DES_SN000021.DAT", full_file)]).
Proof.
  apply (bad_file_stops_run int_any float_any fit_fixed
           [("DES_SN000021.DAT", full_file)]
           [("DES_SN000022.DAT", full_file)]
           "DES_SN000018.DAT" [["SNID:"; "18"]; ["SIM_NON1a:"; "99"]]
           (ValueError "Unknown supernova type!")).
  - reflexivity.
  - reflexivity.
Defined.

(** ** uncertainty_sampling: the order of a selection *)

(** X21: from a pool that has a row, the rows selected come in ascending
    order of the distance the code computes for them, whatever sort
    [argsort] uses and however the subtraction rounds; and when no two
    rows have the same computed distance, every sort gives the same
    selection. *)
Theorem selection_ascending
    (float_sub : pyfloat -> pyfloat -> pyfloat)
    (argsort : list pyfloat -> list nat)
    (class_prob : list (list pyfloat)) (test_ids queryable_ids : list Z)
    (batch : Z) :
  argsort_spec argsort -> aligned class_prob test_ids ->
  class_prob <> [] ->
  exists out,
    uncertainty_sampling_with float_sub argsort class_prob test_ids
                              queryable_ids batch false = Ok out
    /\ ascending (distances float_sub class_prob) out
    /\ (no_ties (distances float_sub class_prob) ->
        forall argsort', argsort_spec argsort' ->
          uncertainty_sampling_with float_sub argsort' class_prob test_ids
                                    queryable_ids batch false = Ok out).
Proof.
  intros Hsort Hal Hrow. eexists.
  split; [now apply uncertainty_sampling_quiet|]. split.
  - apply StronglySorted_slice_to, StronglySorted_filter.
    apply (Hsort (distances float_sub class_prob)).
  - intros Hties argsort' Hsort'.
    rewrite uncertainty_sampling_quiet by assumption.
    unfold ranking.
    now rewrite (argsort_unique _ _ _ Hties (Hsort' _) (Hsort _)).
Qed.

Lemma selection_ascending_witness :
  exists out,
    uncertainty_sampling_with float_round_half argsort_stable
                              close_class_prob close_test_ids close_test_ids
                              2 false = Ok out
    /\ ascending (distances float_round_half close_class_prob) out
    /\ (no_ties (distances float_round_half close_class_prob) ->
        forall argsort', argsort_spec argsort' ->
          uncertainty_sampling_with float_round_half argsort'
                                    close_class_prob close_test_ids
                                    close_test_ids 2 false = Ok out).
Proof.
  apply (selection_ascending float_round_half argsort_stable).
  - exact argsort_stable_spec.
  - split; [reflexivity|]. repeat constructor.
  - discriminate.
Defined.

(** X22: a pool without a row makes the call raise [IndexError], for
    every batch and with [screen] set or not: the list [flag] is empty,
    the array made of it is an array of floats, and [order[flag]] takes
    no such index. *)
Theorem uncertainty_sampling_no_rows
    (float_sub : pyfloat -> pyfloat -> pyfloat)
    (argsort : list pyfloat -> list nat)
    (test_ids queryable_ids : list Z) (batch : Z) (screen : bool) :
  argsort_spec argsort ->
  uncertainty_sampling_with float_sub argsort [] test_ids queryable_ids
                            batch screen
  = Raise IndexError.
Proof.
  intros Hsort. unfold uncertainty_sampling_with. cbn [column mapM bind map].
  destruct (Hsort []) as [Hperm _]. simpl in Hperm.
  apply Permutation_nil in Hperm. rewrite Hperm. reflexivity.
Qed.

Lemma uncertainty_sampling_no_rows_witness :
  uncertainty_sampling_with fsub argsort_stable [] [] [10%Z] 1 false
  = Raise IndexError.
Proof.
  apply (uncertainty_sampling_no_rows fsub argsort_stable).
  exact argsort_stable_spec.
Defined.
